(** * WonderOfUs mental-health companion: the front end's decision logic

    A shallow embedding of the TypeScript components

      - [frontend/src/components/FaceScanner.tsx]   (calculateMoodScore),
      - [frontend/src/components/MoodAnalyzer.tsx]  (handleAnalyze,
        handleFaceEmotionDetected),
      - [frontend/src/components/MoodDashboard.tsx] (emotionData, topEmotions,
        loadDashboardData and the early returns of the render function),
      - [services/api.ts]                           (the wire types),

    followed by the properties the specification states about them.

    Conventions of the embedding.

      - A JavaScript [number] is an IEEE-754 binary64 value.  Where the
        program computes with numbers (the scoring loop of the face scanner
        in [FaceScanner64], the totals and averages of the dashboard) they
        are Rocq's primitive floats ([Double.double]): sums and products are
        rounded, and NaN, the infinities and the two zeros are there.
        Where a number is only stored, handed on or compared with another
        (the scores and intensities of an analysis, thresholds, sizes) it is
        an exact rational ([JS.number]); comparing two doubles is exact, so
        nothing is idealised there.  [FaceScanner.calculateMoodScore] reads
        the scoring loop over the rationals, for the score the scanner hands
        to the analyzer; [FaceScanner64.calculateMoodScore] is the loop as
        it runs.
      - A JavaScript string is the list of its UTF-16 code units.
      - A plain object used as a dictionary ([Record<string, number>]) is the
        list [Object.entries] returns for it: own properties in enumeration
        order, array-index keys first in ascending order, then the other keys
        in insertion order.
        Reading a property of such an object also finds the members it
        inherits from [Object.prototype] ([JS.lookup]).
      - React state is a record; a handler is a function from the state (and
        the outcome of the requests it awaits) to the state it leaves behind,
        together with the list of requests it sent. *)

From Stdlib Require Import List String Ascii Bool NArith ZArith QArith Qminmax.
From Stdlib Require Import Lqa Lia Permutation Sorted Floats.
Import ListNotations.

(** A decimal literal denotes the double nearest to it, as in JavaScript. *)
#[local] Set Warnings "-inexact-float".

(* ================================================================== *)
(** ** The JavaScript values and built-ins the components use          *)
(* ================================================================== *)

Module JS.

(** A string, as its UTF-16 code units. *)
Definition jsstring : Type := list N.

(** A string literal of the source (ASCII only). *)
Definition str (s : string) : jsstring :=
  map N_of_ascii (list_ascii_of_string s).

Fixpoint jsstring_eqb (a b : jsstring) : bool :=
  match a, b with
  | [], [] => true
  | x :: a', y :: b' => N.eqb x y && jsstring_eqb a' b'
  | _, _ => false
  end.

Definition number : Type := Q.

(** [Array.prototype.includes] on an array of strings. *)
Definition includes (arr : list jsstring) (s : jsstring) : bool :=
  existsb (jsstring_eqb s) arr.

(** [Array.prototype.join]. *)
Fixpoint join (sep : jsstring) (l : list jsstring) : jsstring :=
  match l with
  | [] => []
  | [x] => x
  | x :: rest => x ++ sep ++ join sep rest
  end.

(** [Array.prototype.slice(0, n)]. *)
Definition slice0 {A : Type} (n : nat) (l : list A) : list A := firstn n l.

(** ECMAScript WhiteSpace and LineTerminator code points: what
    [String.prototype.trim] strips. *)
Definition is_whitespace (c : N) : bool :=
  (N.eqb c 9 || N.eqb c 10 || N.eqb c 11 || N.eqb c 12 || N.eqb c 13
   || N.eqb c 32 || N.eqb c 160 || N.eqb c 5760
   || (N.leb 8192 c && N.leb c 8202)
   || N.eqb c 8232 || N.eqb c 8233 || N.eqb c 8239 || N.eqb c 8287
   || N.eqb c 12288 || N.eqb c 65279)%bool.

Fixpoint trimStart (s : jsstring) : jsstring :=
  match s with
  | [] => []
  | c :: s' => if is_whitespace c then trimStart s' else s
  end.

Definition trimEnd (s : jsstring) : jsstring := rev (trimStart (rev s)).

Definition trim (s : jsstring) : jsstring := trimEnd (trimStart s).

(** Truthiness of a string and of a number ([!s], [!n], [a || b]). *)
Definition truthy_string (s : jsstring) : bool :=
  match s with [] => false | _ :: _ => true end.

Definition truthy_number (n : number) : bool := negb (Qeq_bool n 0).

(** [a || b] where [a] is a possibly missing string. *)
Definition or_else (a : option jsstring) (b : jsstring) : jsstring :=
  match a with
  | Some s => if truthy_string s then s else b
  | None => b
  end.

(** [Array.prototype.sort(compareFn)]: the sort is stable, and an element [x]
    moves behind [y] only when [compareFn(x, y) > 0]. *)
Section Sort.
Variable A : Type.
Variable compareFn : A -> A -> number.

Fixpoint sort_insert (x : A) (l : list A) : list A :=
  match l with
  | [] => [x]
  | y :: l' =>
      if Qle_bool (compareFn x y) 0 then x :: y :: l'
      else y :: sort_insert x l'
  end.

Definition sort (l : list A) : list A := fold_right sort_insert [] l.
End Sort.

Arguments sort_insert {A} compareFn x l.
Arguments sort {A} compareFn l.

(** *** Objects as dictionaries *)

Definition object : Type := list (jsstring * number).

(** The keys [Object.entries] lists first: canonical decimal strings below
    [2^32 - 1] (array indices), in ascending numeric order. *)
Definition digit_of (c : N) : option N :=
  if (N.leb 48 c && N.leb c 57)%bool then Some (c - 48)%N else None.

Fixpoint decimal_value (acc : N) (s : jsstring) : option N :=
  match s with
  | [] => Some acc
  | c :: s' =>
      match digit_of c with
      | Some d => decimal_value (acc * 10 + d)%N s'
      | None => None
      end
  end.

Definition array_index (k : jsstring) : option N :=
  match k with
  | [] => None
  | c :: rest =>
      if (N.eqb c 48 && truthy_string rest)%bool then None
      else
        match decimal_value 0 k with
        | Some n => if N.ltb n 4294967295 then Some n else None
        | None => None
        end
  end.

(** [o[k]] among the own properties of [o]. *)
Fixpoint obj_get {V : Type} (o : list (jsstring * V)) (k : jsstring)
  : option V :=
  match o with
  | [] => None
  | (k', v) :: o' => if jsstring_eqb k k' then Some v else obj_get o' k
  end.

(** Where a new own property [k] lands in the enumeration order. *)
Fixpoint obj_insert_index {V : Type} (n : N) (k : jsstring) (v : V)
    (o : list (jsstring * V)) : list (jsstring * V) :=
  match o with
  | [] => [(k, v)]
  | (k', v') :: o' =>
      match array_index k' with
      | Some n' =>
          if N.ltb n' n then (k', v') :: obj_insert_index n k v o'
          else (k, v) :: o
      | None => (k, v) :: o
      end
  end.

Definition obj_insert {V : Type} (k : jsstring) (v : V)
    (o : list (jsstring * V)) : list (jsstring * V) :=
  match array_index k with
  | Some n => obj_insert_index n k v o
  | None => o ++ [(k, v)]
  end.

(** Overwrites the value of the existing own property [k]. *)
Fixpoint obj_replace {V : Type} (k : jsstring) (v : V)
    (o : list (jsstring * V)) : list (jsstring * V) :=
  match o with
  | [] => []
  | (k', v') :: o' =>
      if jsstring_eqb k k' then (k', v) :: o'
      else (k', v') :: obj_replace k v o'
  end.

(** [o[k] = v], for a key that has no setter. *)
Definition obj_set {V : Type} (o : list (jsstring * V)) (k : jsstring)
    (v : V) : list (jsstring * V) :=
  match obj_get o k with
  | Some _ => obj_replace k v o
  | None => obj_insert k v o
  end.

(** The members an object literal inherits from [Object.prototype]. *)
Definition prototypeMembers : list jsstring :=
  [str "constructor"; str "__defineGetter__"; str "__defineSetter__";
   str "hasOwnProperty"; str "__lookupGetter__"; str "__lookupSetter__";
   str "isPrototypeOf"; str "propertyIsEnumerable"; str "toString";
   str "valueOf"; str "__proto__"; str "toLocaleString"].

(** What reading [o[k]] finds on an object literal: an own property; a
    member inherited from [Object.prototype] (a function, and for
    ['__proto__'] the prototype itself: truthy, and not a number); or
    nothing ([undefined]). *)
Inductive Lookup (V : Type) : Type :=
| Own (v : V)
| Inherited
| Undefined.

Arguments Own {V} v.
Arguments Inherited {V}.
Arguments Undefined {V}.

Definition lookup {V : Type} (o : list (jsstring * V)) (k : jsstring)
  : Lookup V :=
  match obj_get o k with
  | Some v => Own v
  | None => if includes prototypeMembers k then Inherited else Undefined
  end.

End JS.

(* ================================================================== *)
(** ** Numbers the program computes with: binary64                     *)
(* ================================================================== *)

Module Double.
Import JS.
Open Scope float_scope.

Definition double : Type := float.

(** [Math.max(a, b)] and [Math.min(a, b)]: NaN as soon as an argument is
    NaN, and [+0] counts as larger than [-0]. *)
Definition Math_max (a b : double) : double :=
  if is_nan a || is_nan b then nan
  else if a <? b then b
  else if Leibniz.eqb b zero && Leibniz.eqb a neg_zero then b
  else a.

Definition Math_min (a b : double) : double :=
  if is_nan a || is_nan b then nan
  else if b <? a then b
  else if Leibniz.eqb b neg_zero && Leibniz.eqb a zero then b
  else a.

(** Truthiness of a number: [0], [-0] and NaN are falsy. *)
Definition truthy (x : double) : bool := negb (is_nan x || (x =? 0)).

(** What [Array.prototype.sort] makes of the number [v] its comparator
    returned for [(x, y)]: [x] stays before [y] unless [v > 0], and a NaN
    counts as [+0]. *)
Definition keeps (v : double) : bool := is_nan v || (v <=? 0).

(** [Array.prototype.sort(compareFn)] with a comparator into the doubles.
    The sort is stable.  For a comparator that is not consistent the order
    is left to the engine; the facts below are about inputs on which it
    is. *)
Section Sort.
Variable A : Type.
Variable compareFn : A -> A -> double.

Fixpoint sort_insert (x : A) (l : list A) : list A :=
  match l with
  | [] => [x]
  | y :: l' =>
      if keeps (compareFn x y) then x :: y :: l'
      else y :: sort_insert x l'
  end.

Definition sort (l : list A) : list A := fold_right sort_insert [] l.
End Sort.

Arguments sort_insert {A} compareFn x l.
Arguments sort {A} compareFn l.

(** [array.length] as a number. *)
Definition of_length (n : nat) : double :=
  of_uint63 (Uint63Axioms.of_Z (Z.of_nat n)).

(** A [Record<string, number>] whose numbers enter a computation. *)
Definition dictionary : Type := list (jsstring * double).

End Double.

(* ================================================================== *)
(** ** services/api.ts: the wire types                                 *)
(* ================================================================== *)

Module Api.
Import JS.

Module Sentiment.
Record t : Type := mk { label : jsstring; score : number }.
End Sentiment.

Module MoodAnalysis.
Record t : Type := mk {
  sentiment : Sentiment.t;
  emotions : object;
  mood_score : number;
  text_length : number
}.
End MoodAnalysis.

Inductive RiskLevel : Type := LOW | MEDIUM | HIGH.

Module Resource.
Record t : Type := mk {
  name : jsstring;
  phone : jsstring;
  text : option jsstring;
  available : jsstring;
  priority : option jsstring
}.
End Resource.

Module CrisisCheck.
Record t : Type := mk {
  risk_level : RiskLevel;
  indicators : list jsstring;
  requires_immediate_attention : bool;
  resources : list Resource.t;
  ai_reasoning : option jsstring;
  ai_enhanced : option bool
}.
End CrisisCheck.

Module Recommendation.
Record t : Type := mk {
  type : jsstring;
  title : jsstring;
  description : jsstring;
  priority : jsstring;
  source : option jsstring;
  ai_enhanced : option bool
}.
End Recommendation.

Module MoodAnalysisRequest.
Record t : Type := mk { text : jsstring; user_id : option jsstring }.
End MoodAnalysisRequest.

Module MoodAnalysisResponse.
Record t : Type := mk {
  success : bool;
  mood_analysis : MoodAnalysis.t;
  crisis_check : CrisisCheck.t;
  recommendations : list Recommendation.t
}.
End MoodAnalysisResponse.

(** The intensities of a history entry are added up by the dashboard. *)
Module MoodHistoryEntry.
Record t : Type := mk {
  timestamp : jsstring;
  mood_score : number;
  sentiment : Sentiment.t;
  emotions : option Double.dictionary;
  text : jsstring
}.
End MoodHistoryEntry.

(** What a rejected request carries, as the handlers read it:
    [err.response?.data?.detail] and [err.message]. *)
Module RequestError.
Record t : Type := mk { detail : option jsstring; message : jsstring }.
End RequestError.

(** The outcome of an awaited request. *)
Inductive Outcome (A : Type) : Type :=
| Resolved (value : A)
| Rejected (err : RequestError.t).

Arguments Resolved {A} value.
Arguments Rejected {A} err.

End Api.

(* ================================================================== *)
(** ** FaceScanner.tsx                                                 *)
(* ================================================================== *)

Module FaceScanner.
Import JS.
Open Scope Q_scope.

Definition positiveEmotions : list jsstring := [str "happy"; str "surprised"].

Definition negativeEmotions : list jsstring :=
  [str "sad"; str "angry"; str "fearful"; str "disgusted"].

(** One turn of the [for ... of Object.entries(expressions)] loop. *)
Definition score_step (score : number) (entry : jsstring * number) : number :=
  let '(emotion, value) := entry in
  if includes positiveEmotions emotion then score + value * 3
  else if includes negativeEmotions emotion then score - value * 3
  else score.

(** [Math.max(0, Math.min(10, score))]. *)
Definition clamp (score : number) : number := Qmax 0 (Qmin 10 score).

Definition calculateMoodScore (expressions : object) : number :=
  let score := fold_left score_step expressions 5 in
  clamp score.

End FaceScanner.

(** [calculateMoodScore] as it runs, on doubles. *)
Module FaceScanner64.
Import JS Double.
Open Scope float_scope.

Definition positiveEmotions : list jsstring := [str "happy"; str "surprised"].

Definition negativeEmotions : list jsstring :=
  [str "sad"; str "angry"; str "fearful"; str "disgusted"].

(** One turn of the [for ... of Object.entries(expressions)] loop. *)
Definition score_step (score : double) (entry : jsstring * double) : double :=
  let '(emotion, value) := entry in
  if includes positiveEmotions emotion then score + value * 3
  else if includes negativeEmotions emotion then score - value * 3
  else score.

(** [Math.max(0, Math.min(10, score))]. *)
Definition clamp (score : double) : double := Math_max 0 (Math_min 10 score).

Definition calculateMoodScore (expressions : dictionary) : double :=
  let score := fold_left score_step expressions 5 in
  clamp score.

End FaceScanner64.

(* ================================================================== *)
(** ** MoodAnalyzer.tsx                                                *)
(* ================================================================== *)

Module MoodAnalyzer.
Import JS Api.
Open Scope Q_scope.

(** The component's [useState] cells. *)
Record State : Type := mkState {
  text : jsstring;
  loading : bool;
  result : option MoodAnalysisResponse.t;
  error : option jsstring;
  showTestPrompts : bool;
  showFaceScanner : bool
}.

Definition initial : State :=
  {| text := []; loading := false; result := None; error := None;
     showTestPrompts := false; showFaceScanner := false |}.

Definition setText (v : jsstring) (st : State) : State :=
  {| text := v; loading := loading st; result := result st;
     error := error st; showTestPrompts := showTestPrompts st;
     showFaceScanner := showFaceScanner st |}.

Definition setLoading (v : bool) (st : State) : State :=
  {| text := text st; loading := v; result := result st;
     error := error st; showTestPrompts := showTestPrompts st;
     showFaceScanner := showFaceScanner st |}.

Definition setResult (v : option MoodAnalysisResponse.t) (st : State) : State :=
  {| text := text st; loading := loading st; result := v;
     error := error st; showTestPrompts := showTestPrompts st;
     showFaceScanner := showFaceScanner st |}.

Definition setError (v : option jsstring) (st : State) : State :=
  {| text := text st; loading := loading st; result := result st;
     error := v; showTestPrompts := showTestPrompts st;
     showFaceScanner := showFaceScanner st |}.

Definition setShowTestPrompts (v : bool) (st : State) : State :=
  {| text := text st; loading := loading st; result := result st;
     error := error st; showTestPrompts := v;
     showFaceScanner := showFaceScanner st |}.

Definition setShowFaceScanner (v : bool) (st : State) : State :=
  {| text := text st; loading := loading st; result := result st;
     error := error st; showTestPrompts := showTestPrompts st;
     showFaceScanner := v |}.

(** [moodAPI.analyze]: the POST to /api/mood/analyze, as the handlers see it. *)
Definition AnalyzeApi : Type :=
  MoodAnalysisRequest.t -> Outcome MoodAnalysisResponse.t.

(** What a handler leaves behind: the requests it sent, in order, and the
    state after its last [set...] call. *)
Definition Effect : Type := (list MoodAnalysisRequest.t * State)%type.

Definition default_user : option jsstring := Some (str "default_user").

Definition handleAnalyze (analyze : AnalyzeApi) (st : State) : Effect :=
  if negb (truthy_string (trim (text st))) then
    ([], setError (Some (str "Please enter some text to analyze")) st)
  else
    let st := setLoading true st in
    let st := setError None st in
    let st := setResult None st in
    let request :=
      {| MoodAnalysisRequest.text := text st;
         MoodAnalysisRequest.user_id := default_user |} in
    match analyze request with
    | Resolved response =>
        let st := setResult (Some response) st in
        ([request], setLoading false st)
    | Rejected err =>
        let st :=
          setError
            (Some
               (or_else (RequestError.detail err)
                  (str "Failed to analyze mood: " ++ RequestError.message err
                   ++ str ". Is the backend running?"))) st in
        ([request], setLoading false st)
    end.

Definition getMoodLabel (score : number) : jsstring :=
  if Qle_bool 8 score then str "Excellent"
  else if Qle_bool 6 score then str "Good"
  else if Qle_bool 4 score then str "Moderate"
  else if Qle_bool 2 score then str "Low"
  else str "Very Low".

(** [response.mood_analysis.mood_score = v]. *)
Definition assign_mood_score (response : MoodAnalysisResponse.t) (v : number)
  : MoodAnalysisResponse.t :=
  let m := MoodAnalysisResponse.mood_analysis response in
  {| MoodAnalysisResponse.success := MoodAnalysisResponse.success response;
     MoodAnalysisResponse.mood_analysis :=
       {| MoodAnalysis.sentiment := MoodAnalysis.sentiment m;
          MoodAnalysis.emotions := MoodAnalysis.emotions m;
          MoodAnalysis.mood_score := v;
          MoodAnalysis.text_length := MoodAnalysis.text_length m |};
     MoodAnalysisResponse.crisis_check :=
       MoodAnalysisResponse.crisis_check response;
     MoodAnalysisResponse.recommendations :=
       MoodAnalysisResponse.recommendations response |}.

(** [response.mood_analysis.emotions = v]. *)
Definition assign_emotions (response : MoodAnalysisResponse.t) (v : object)
  : MoodAnalysisResponse.t :=
  let m := MoodAnalysisResponse.mood_analysis response in
  {| MoodAnalysisResponse.success := MoodAnalysisResponse.success response;
     MoodAnalysisResponse.mood_analysis :=
       {| MoodAnalysis.sentiment := MoodAnalysis.sentiment m;
          MoodAnalysis.emotions := v;
          MoodAnalysis.mood_score := MoodAnalysis.mood_score m;
          MoodAnalysis.text_length := MoodAnalysis.text_length m |};
     MoodAnalysisResponse.crisis_check :=
       MoodAnalysisResponse.crisis_check response;
     MoodAnalysisResponse.recommendations :=
       MoodAnalysisResponse.recommendations response |}.

(** The names of the (at most three) strongest expressions above 0.1. *)
Definition topEmotions (emotions : object) : list jsstring :=
  map fst
    (slice0 3
       (sort (fun x y => snd y - snd x)
          (filter (fun entry => negb (Qle_bool (snd entry) 0.1)) emotions))).

Definition emotionText (emotions : object) : jsstring :=
  str "I'm feeling " ++ join (str ", ") (topEmotions emotions)
  ++ str " based on my facial expression.".

Definition handleFaceEmotionDetected (analyze : AnalyzeApi)
    (emotions : object) (moodScore : number) (st : State) : Effect :=
  let st := setText (emotionText emotions) st in
  let st := setLoading true st in
  let st := setError None st in
  let st := setResult None st in
  let request :=
    {| MoodAnalysisRequest.text := emotionText emotions;
       MoodAnalysisRequest.user_id := default_user |} in
  match analyze request with
  | Resolved response =>
      let response := assign_mood_score response moodScore in
      let response := assign_emotions response emotions in
      let st := setResult (Some response) st in
      ([request], setLoading false st)
  | Rejected err =>
      let st :=
        setError
          (Some
             (or_else (RequestError.detail err)
                (str "Failed to analyze mood. Please try again."))) st in
      ([request], setLoading false st)
  end.

(** Whether the red "Immediate Support Available" card is rendered. *)
Definition crisisAlertShown (st : State) : bool :=
  match result st with
  | Some r =>
      CrisisCheck.requires_immediate_attention
        (MoodAnalysisResponse.crisis_check r)
  | None => false
  end.

(** What the user and the face scanner can do to the component. *)
Inductive Event : Type :=
| Typed (value : jsstring)
| ClickAnalyze
| FaceDetected (emotions : object) (moodScore : number)
| ToggleTestPrompts (v : bool)
| ToggleFaceScanner (v : bool).

Definition step (analyze : AnalyzeApi) (ev : Event) (st : State) : Effect :=
  match ev with
  | Typed v => ([], setText v st)
  | ClickAnalyze => handleAnalyze analyze st
  | FaceDetected emotions moodScore =>
      handleFaceEmotionDetected analyze emotions moodScore st
  | ToggleTestPrompts v => ([], setShowTestPrompts v st)
  | ToggleFaceScanner v => ([], setShowFaceScanner v st)
  end.

End MoodAnalyzer.

(* ================================================================== *)
(** ** MoodDashboard.tsx                                               *)
(* ================================================================== *)

Module MoodDashboard.
Import JS Api.
Open Scope Q_scope.

(** The fields of the [patterns] payload (typed [any]) that the render
    function reads. *)
Record Patterns : Type := mkPatterns {
  average_mood : option number;
  trend : option jsstring;
  ai_insight : option jsstring
}.

Record State : Type := mkState {
  history : list MoodHistoryEntry.t;
  patterns : option Patterns;
  recommendations : option (list Recommendation.t);
  loading : bool;
  seeding : bool;
  showToast : bool
}.

Definition initial : State :=
  {| history := []; patterns := None; recommendations := None;
     loading := true; seeding := false; showToast := false |}.

Definition setHistory (v : list MoodHistoryEntry.t) (st : State) : State :=
  {| history := v; patterns := patterns st;
     recommendations := recommendations st; loading := loading st;
     seeding := seeding st; showToast := showToast st |}.

Definition setPatterns (v : option Patterns) (st : State) : State :=
  {| history := history st; patterns := v;
     recommendations := recommendations st; loading := loading st;
     seeding := seeding st; showToast := showToast st |}.

Definition setRecommendations (v : option (list Recommendation.t))
    (st : State) : State :=
  {| history := history st; patterns := patterns st;
     recommendations := v; loading := loading st;
     seeding := seeding st; showToast := showToast st |}.

Definition setLoading (v : bool) (st : State) : State :=
  {| history := history st; patterns := patterns st;
     recommendations := recommendations st; loading := v;
     seeding := seeding st; showToast := showToast st |}.

(** The three payloads [loadDashboardData] awaits together. *)
Record HistoryData : Type := mkHistoryData {
  success : bool;
  entries : list MoodHistoryEntry.t;
  total_entries : number
}.

(** [Promise.all] rejects as soon as one request does; the [catch] only
    logs, and [finally] clears the spinner. *)
Definition loadDashboardData
    (historyData : Outcome HistoryData)
    (patternsData : Outcome (option Patterns))
    (recsData : Outcome (option (list Recommendation.t)))
    (st : State) : State :=
  match historyData, patternsData, recsData with
  | Resolved h, Resolved p, Resolved r =>
      let st := setHistory (entries h) st in
      let st := setPatterns p st in
      let st := setRecommendations r st in
      setLoading false st
  | _, _, _ => setLoading false st
  end.

(** [entry.emotions || {}]. *)
Definition emotions_of (entry : MoodHistoryEntry.t) : Double.dictionary :=
  match MoodHistoryEntry.emotions entry with
  | Some o => o
  | None => []
  end.

(** What a property of the accumulator holds: a number, or the text [+=]
    makes of a member inherited from [Object.prototype] (the member's source
    text followed by the scores). *)
Inductive Total : Type :=
| Num (x : Double.double)
| Text.

(** [Number(total)], as [-] and [/] apply it: such a text is no numeral. *)
Definition toNumber (t : Total) : Double.double :=
  match t with
  | Num x => x
  | Text => nan
  end.

(** The body of the [forEach]:
    [if (!acc[emotion]) acc[emotion] = 0; acc[emotion] += score],
    on the accumulator [{}].  An inherited member is truthy, so the guard
    leaves it, and [+=] appends the score to its text; the result becomes
    an own property, except under ['__proto__'], whose setter ignores a
    string. *)
Definition add_score (acc : list (jsstring * Total))
    (entry : jsstring * Double.double) : list (jsstring * Total) :=
  let '(emotion, score) := entry in
  let acc :=
    match lookup acc emotion with
    | Own (Num v) =>
        if Double.truthy v then acc else obj_set acc emotion (Num 0%float)
    | Own Text => acc
    | Inherited => acc
    | Undefined => obj_set acc emotion (Num 0%float)
    end in
  match lookup acc emotion with
  | Own (Num v) => obj_set acc emotion (Num (v + score)%float)
  | Own Text => obj_set acc emotion Text
  | Inherited =>
      if jsstring_eqb emotion (str "__proto__") then acc
      else obj_set acc emotion Text
  | Undefined => obj_set acc emotion (Num nan)
  end.

Definition emotionData (history : list MoodHistoryEntry.t)
  : list (jsstring * Total) :=
  fold_left
    (fun acc entry => fold_left add_score (emotions_of entry) acc)
    history [].

Record TopEmotion : Type := mkTopEmotion {
  emotion : jsstring;
  average : Double.double
}.

Definition topEmotions (history : list MoodHistoryEntry.t) : list TopEmotion :=
  map
    (fun entry =>
       let '(emotion, total) := entry in
       {| emotion := emotion;
          average :=
            (toNumber total / Double.of_length (List.length history))%float |})
    (slice0 5
       (Double.sort
          (fun x y => (toNumber (snd y) - toNumber (snd x))%float)
          (emotionData history))).

(** *** The render function, down to its summary cards *)

Inductive Tone : Type := Green | Primary | Orange.

Record Summary : Type := mkSummary {
  toast : bool;
  averageMood : jsstring;
  averageMoodTone : Tone;
  totalEntries : nat;
  trendText : jsstring;
  commonEmotions : list TopEmotion;
  insight : option jsstring
}.

(** The three returns of the render function.  Only the last one holds the
    success toast ([{showToast && ...}]) and the summary cards. *)
Inductive View : Type :=
| LoadingSpinner
| NoMoodData (seeding : bool)
| Dashboard (summary : Summary).

Definition NA : jsstring := str "N/A".

Section Render.
(** [Number.prototype.toFixed], a built-in; [toFixed x d] is [x.toFixed(d)]. *)
Variable toFixed : number -> nat -> jsstring.

(** [patterns?.average_mood?.toFixed(1) || 'N/A']. *)
Definition averageMoodText (p : option Patterns) : jsstring :=
  or_else
    match p with
    | Some p =>
        match average_mood p with
        | Some a => Some (toFixed a 1)
        | None => None
        end
    | None => None
    end
    NA.

(** [patterns?.average_mood || 0]. *)
Definition average_or_zero (p : option Patterns) : number :=
  match p with
  | Some p =>
      match average_mood p with
      | Some a => if truthy_number a then a else 0
      | None => 0
      end
  | None => 0
  end.

Definition toneOf (p : option Patterns) : Tone :=
  if Qle_bool 7 (average_or_zero p) then Green
  else if Qle_bool 4 (average_or_zero p) then Primary
  else Orange.

(** [patterns?.trend || 'STABLE']. *)
Definition trendOf (p : option Patterns) : jsstring :=
  or_else
    match p with
    | Some p => trend p
    | None => None
    end
    (str "STABLE").

Definition render (st : State) : View :=
  if loading st then LoadingSpinner
  else if Nat.eqb (List.length (history st)) 0 then NoMoodData (seeding st)
  else
    Dashboard
      {| toast := showToast st;
         averageMood := averageMoodText (patterns st);
         averageMoodTone := toneOf (patterns st);
         totalEntries := List.length (history st);
         trendText := trendOf (patterns st);
         commonEmotions := topEmotions (history st);
         insight :=
           match patterns st with
           | Some p =>
               match ai_insight p with
               | Some s => if truthy_string s then Some s else None
               | None => None
               end
           | None => None
           end |}.
End Render.

End MoodDashboard.

(* ================================================================== *)
(** ** The backend's crisis checker                                    *)
(* ================================================================== *)

Module Backend.
Import JS Api.

(** Modelled from the spec: the two severities of an indicator ("any
    high-severity indicator", "only moderate indicators").  The backend (the
    service behind /api/mood/analyze and /api/crisis/check) is not among the
    sources. *)
Inductive Severity : Type := HighSeverity | ModerateSeverity.

(** Modelled from the spec: one entry of the crisis checker's fixed indicator
    categories, an indicator phrase with its category name and severity
    (section 4.2). *)
Record Indicator : Type := mkIndicator {
  phrase : jsstring;
  category : jsstring;
  severity : Severity
}.

(** Modelled from the spec: the text [s] begins with [prefix]. *)
Fixpoint starts_with (s prefix : jsstring) : bool :=
  match prefix, s with
  | [], _ => true
  | p :: prefix', c :: s' => N.eqb p c && starts_with s' prefix'
  | _ :: _, [] => false
  end.

(** Modelled from the spec: "indicator phrase is present in the input
    text", read as an occurrence of the phrase anywhere in the text. *)
Fixpoint present (sub s : jsstring) : bool :=
  starts_with s sub
  || match s with
     | [] => false
     | _ :: s' => present sub s'
     end.

(** Modelled from the spec: a high-severity indicator. *)
Definition is_high (i : Indicator) : bool :=
  match severity i with HighSeverity => true | ModerateSeverity => false end.

(** Modelled from the spec: [risk_level == HIGH]. *)
Definition is_HIGH (r : RiskLevel) : bool :=
  match r with HIGH => true | _ => false end.

Section CrisisChecker.
(** The indicator phrases, the resource catalog and the number of resources
    shown are data of the backend. *)
Variable catalog : list Indicator.
Variable resource_catalog : list Resource.t.
Variable shown_resources : nat.

(** Modelled from the spec: the rule scan, "scan for membership in fixed
    indicator categories". *)
Definition scan (text : jsstring) : list Indicator :=
  filter (fun i => present (phrase i) text) catalog.

(** Modelled from the spec: "risk_level = HIGH if any high-severity indicator
    present, MEDIUM if only moderate indicators, else LOW". *)
Definition risk_of (matched : list Indicator) : RiskLevel :=
  if existsb is_high matched then HIGH
  else
    match matched with
    | [] => LOW
    | _ :: _ => MEDIUM
    end.

(** Modelled from the spec: the crisis checker of section 4.2,
    "requires_immediate_attention = true iff risk_level == HIGH"; the resource
    list is the static catalog cut to a fixed count, and the optional
    reasoning annotation is attached without touching the risk level. *)
Definition crisis_check (text : jsstring) (annotation : option jsstring)
  : CrisisCheck.t :=
  let matched := scan text in
  let risk := risk_of matched in
  {| CrisisCheck.risk_level := risk;
     CrisisCheck.indicators := map category matched;
     CrisisCheck.requires_immediate_attention := is_HIGH risk;
     CrisisCheck.resources := firstn shown_resources resource_catalog;
     CrisisCheck.ai_reasoning := annotation;
     CrisisCheck.ai_enhanced :=
       match annotation with Some _ => Some true | None => None end |}.

(** Modelled from the spec: a backend whose every successful answer to
    analyze(text, user_id) carries the crisis assessment of the request's
    text; the other fields come from the pretrained models and are left
    open. *)
Definition conforming (analyze : MoodAnalyzer.AnalyzeApi) : Prop :=
  forall request response,
    analyze request = Resolved response ->
    exists annotation,
      MoodAnalysisResponse.crisis_check response
      = crisis_check (MoodAnalysisRequest.text request) annotation.
End CrisisChecker.

End Backend.

(* ================================================================== *)
(** ** The vocabulary of the specification                             *)
(* ================================================================== *)

Module Terms.
Import JS Api.
Open Scope Q_scope.

(** A text that is empty or consists only of white space. *)
Definition blank (s : jsstring) : Prop :=
  Forall (fun c => is_whitespace c = true) s.

(** The request the face-scan path sends: the synthesized emotion text, for
    the default user. *)
Definition faceRequest (emotions : object) : MoodAnalysisRequest.t :=
  {| MoodAnalysisRequest.text := MoodAnalyzer.emotionText emotions;
     MoodAnalysisRequest.user_id := MoodAnalyzer.default_user |}.

(** The crisis assessment's invariant:
    requires_immediate_attention == (risk_level == HIGH). *)
Definition attention_iff_high (c : CrisisCheck.t) : Prop :=
  CrisisCheck.requires_immediate_attention c = true
  <-> CrisisCheck.risk_level c = HIGH.

(** The average mood is missing from the patterns payload. *)
Definition average_missing (p : option MoodDashboard.Patterns) : Prop :=
  match p with
  | Some p => MoodDashboard.average_mood p = None
  | None => True
  end.

(** What the 'Average Mood' card of a view reads; the spinner and the
    no-data view have no such card. *)
Definition displayedAverage (v : MoodDashboard.View) : option jsstring :=
  match v with
  | MoodDashboard.Dashboard summary => Some (MoodDashboard.averageMood summary)
  | _ => None
  end.

(** Whether a view holds the success toast. *)
Definition toastDisplayed (v : MoodDashboard.View) : bool :=
  match v with
  | MoodDashboard.Dashboard summary => MoodDashboard.toast summary
  | _ => false
  end.

(** The values a list of (name, value) pairs holds under the name [e], in
    the order of the list. *)
Definition recorded (e : jsstring) (pairs : Double.dictionary)
  : list Double.double :=
  map snd (filter (fun kv => jsstring_eqb e (fst kv)) pairs).


(** The intensities an entry records for [e] (none when it has no
    mapping). *)
Definition intensities (e : jsstring) (entry : MoodHistoryEntry.t)
  : list Double.double :=
  match MoodHistoryEntry.emotions entry with
  | Some mapping => recorded e mapping
  | None => []
  end.









(** The states of the MoodAnalyzer component a session can reach, against a
    backend every answer of which carries the crisis checker's assessment. *)
Section Session.
Variable catalog : list Backend.Indicator.
Variable resource_catalog : list Resource.t.
Variable shown_resources : nat.

Inductive reachable : MoodAnalyzer.State -> Prop :=
| reach_initial : reachable MoodAnalyzer.initial
| reach_step (analyze : MoodAnalyzer.AnalyzeApi) (ev : MoodAnalyzer.Event)
    (st : MoodAnalyzer.State) :
    Backend.conforming catalog resource_catalog shown_resources analyze ->
    reachable st ->
    reachable (snd (MoodAnalyzer.step analyze ev st)).
End Session.

End Terms.

(** Concrete inputs for the examples. *)
Module Samples.
Import JS Api.
Open Scope Q_scope.

Definition catalog : list Backend.Indicator :=
  [ {| Backend.phrase := str "hopeless";
       Backend.category := str "hopelessness";
       Backend.severity := Backend.HighSeverity |};
    {| Backend.phrase := str "stressed";
       Backend.category := str "stress";
       Backend.severity := Backend.ModerateSeverity |} ].

Definition resource_catalog : list Resource.t :=
  [ {| Resource.name := str "Crisis Services Canada";
       Resource.phone := str "1-833-456-4566";
       Resource.text := Some (str "45645");
       Resource.available := str "24/7";
       Resource.priority := Some (str "IMMEDIATE") |} ].

(** A backend that answers every request, with a text-derived score of 5. *)
Definition backend : MoodAnalyzer.AnalyzeApi :=
  fun request =>
    Resolved
      {| MoodAnalysisResponse.success := true;
         MoodAnalysisResponse.mood_analysis :=
           {| MoodAnalysis.sentiment :=
                {| Sentiment.label := str "NEUTRAL"; Sentiment.score := 0.5 |};
              MoodAnalysis.emotions := [(str "neutral", 0.9)];
              MoodAnalysis.mood_score := 5;
              MoodAnalysis.text_length :=
                inject_Z
                  (Z.of_nat (List.length (MoodAnalysisRequest.text request))) |};
         MoodAnalysisResponse.crisis_check :=
           Backend.crisis_check catalog resource_catalog 2
             (MoodAnalysisRequest.text request) None;
         MoodAnalysisResponse.recommendations := [] |}.

(** A backend that cannot be reached. *)
Definition offline : MoodAnalyzer.AnalyzeApi :=
  fun _ =>
    Rejected
      {| RequestError.detail := None;
         RequestError.message := str "Network Error" |}.

Definition expressions : object :=
  [(str "happy", 0.8); (str "sad", 0.1); (str "neutral", 0.05)].

(** The intensities of a history entry. *)
Definition intensities : Double.dictionary :=
  [(str "happy", 0.8%float); (str "sad", 0.1%float);
   (str "neutral", 0.05%float)].

Definition entry (emotions : option Double.dictionary) : MoodHistoryEntry.t :=
  {| MoodHistoryEntry.timestamp := str "2025-01-01T00:00:00";
     MoodHistoryEntry.mood_score := 6;
     MoodHistoryEntry.sentiment :=
       {| Sentiment.label := str "POSITIVE"; Sentiment.score := 0.9 |};
     MoodHistoryEntry.emotions := emotions;
     MoodHistoryEntry.text := str "a good day" |}.

End Samples.

(* ================================================================== *)
(** ** MoodAnalyzer.tsx: the render function                           *)
(* ================================================================== *)

Module MoodAnalyzerView.
Import JS Api MoodAnalyzer.
Open Scope Q_scope.

(** [disabled={loading || !text.trim()}] of the "Analyze My Mood" button. *)
Definition analyzeDisabled (st : State) : bool :=
  loading st || negb (truthy_string (trim (text st))).

(** The "Detected Emotions" chips:
    [Object.entries(emotions).sort(([, a], [, b]) => b - a).slice(0, 5)]. *)
Definition emotionChips (r : MoodAnalysisResponse.t)
  : list (jsstring * number) :=
  slice0 5
    (sort (fun x y => snd y - snd x)
       (MoodAnalysis.emotions (MoodAnalysisResponse.mood_analysis r))).

(** The object literal of the comparator. *)
Definition priorityOrder : object :=
  [(str "CRITICAL", 0); (str "HIGH", 1); (str "MEDIUM", 2); (str "LOW", 3)].

(** [priorityOrder[p] || 99].  The rank 0 of 'CRITICAL' is falsy and gives
    99; a member inherited from [Object.prototype] is truthy and stays, and
    is not a number ([None]). *)
Definition priorityRank (p : jsstring) : option number :=
  match lookup priorityOrder p with
  | Own n => Some (if truthy_number n then n else 99)
  | Inherited => None
  | Undefined => Some 99
  end.

(** [result.recommendations.sort((a, b) => ...)]: the comparator of the
    "Personalized Recommendations" list, the difference of the two ranks;
    it is NaN ([None]) when one of them is not a number. *)
Definition comparePriority (a b : Recommendation.t) : option number :=
  match priorityRank (Recommendation.priority a),
        priorityRank (Recommendation.priority b) with
  | Some x, Some y => Some (x - y)
  | _, _ => None
  end.

(** [Array.prototype.sort] reads a comparator result that is NaN as [+0]. *)
Definition sortCompare (v : option number) : number :=
  match v with
  | Some x => x
  | None => 0
  end.

(** With a priority that names an inherited member the comparator is not
    consistent, and the order is left to the engine. *)
Definition sortedRecommendations (recs : list Recommendation.t)
  : list Recommendation.t :=
  sort (fun a b => sortCompare (comparePriority a b)) recs.

(** [Array.prototype.sort] sorts in place: rendering leaves the sorted array
    in the response object the state holds. *)
Definition renderSorts (r : MoodAnalysisResponse.t) : MoodAnalysisResponse.t :=
  {| MoodAnalysisResponse.success := MoodAnalysisResponse.success r;
     MoodAnalysisResponse.mood_analysis :=
       MoodAnalysisResponse.mood_analysis r;
     MoodAnalysisResponse.crisis_check := MoodAnalysisResponse.crisis_check r;
     MoodAnalysisResponse.recommendations :=
       sortedRecommendations (MoodAnalysisResponse.recommendations r) |}.

End MoodAnalyzerView.

(* ================================================================== *)
(** ** FaceScanner.tsx: upload, scanning and capture                   *)
(* ================================================================== *)

Module FaceScannerUI.
Import JS Api.
Open Scope Q_scope.

(** [String.prototype.startsWith]. *)
Fixpoint startsWith (s prefix : jsstring) : bool :=
  match prefix, s with
  | [], _ => true
  | p :: prefix', c :: s' => N.eqb c p && startsWith s' prefix'
  | _ :: _, [] => false
  end.

(** The component's [useState] cells, and whether [intervalRef.current]
    holds a timer. *)
Record State : Type := mkState {
  isLoading : bool;
  isScanning : bool;
  error : option jsstring;
  detectedEmotions : option object;
  modelsLoaded : bool;
  faceapi : bool;
  imageMode : bool;
  uploadedImage : option jsstring;
  intervalRef : bool
}.

Definition initial : State :=
  {| isLoading := true; isScanning := false; error := None;
     detectedEmotions := None; modelsLoaded := false; faceapi := false;
     imageMode := false; uploadedImage := None; intervalRef := false |}.

Definition setIsLoading (v : bool) (st : State) : State :=
  {| isLoading := v; isScanning := isScanning st; error := error st;
     detectedEmotions := detectedEmotions st;
     modelsLoaded := modelsLoaded st; faceapi := faceapi st;
     imageMode := imageMode st; uploadedImage := uploadedImage st;
     intervalRef := intervalRef st |}.

Definition setModelsLoaded (v : bool) (st : State) : State :=
  {| isLoading := isLoading st; isScanning := isScanning st;
     error := error st; detectedEmotions := detectedEmotions st;
     modelsLoaded := v; faceapi := faceapi st;
     imageMode := imageMode st; uploadedImage := uploadedImage st;
     intervalRef := intervalRef st |}.

Definition setFaceapi (v : bool) (st : State) : State :=
  {| isLoading := isLoading st; isScanning := isScanning st;
     error := error st; detectedEmotions := detectedEmotions st;
     modelsLoaded := modelsLoaded st; faceapi := v;
     imageMode := imageMode st; uploadedImage := uploadedImage st;
     intervalRef := intervalRef st |}.

Definition setIsScanning (v : bool) (st : State) : State :=
  {| isLoading := isLoading st; isScanning := v; error := error st;
     detectedEmotions := detectedEmotions st;
     modelsLoaded := modelsLoaded st; faceapi := faceapi st;
     imageMode := imageMode st; uploadedImage := uploadedImage st;
     intervalRef := intervalRef st |}.

Definition setError (v : option jsstring) (st : State) : State :=
  {| isLoading := isLoading st; isScanning := isScanning st; error := v;
     detectedEmotions := detectedEmotions st;
     modelsLoaded := modelsLoaded st; faceapi := faceapi st;
     imageMode := imageMode st; uploadedImage := uploadedImage st;
     intervalRef := intervalRef st |}.

Definition setDetectedEmotions (v : option object) (st : State) : State :=
  {| isLoading := isLoading st; isScanning := isScanning st;
     error := error st; detectedEmotions := v;
     modelsLoaded := modelsLoaded st; faceapi := faceapi st;
     imageMode := imageMode st; uploadedImage := uploadedImage st;
     intervalRef := intervalRef st |}.

Definition setImageMode (v : bool) (st : State) : State :=
  {| isLoading := isLoading st; isScanning := isScanning st;
     error := error st; detectedEmotions := detectedEmotions st;
     modelsLoaded := modelsLoaded st; faceapi := faceapi st;
     imageMode := v; uploadedImage := uploadedImage st;
     intervalRef := intervalRef st |}.

Definition setUploadedImage (v : option jsstring) (st : State) : State :=
  {| isLoading := isLoading st; isScanning := isScanning st;
     error := error st; detectedEmotions := detectedEmotions st;
     modelsLoaded := modelsLoaded st; faceapi := faceapi st;
     imageMode := imageMode st; uploadedImage := v;
     intervalRef := intervalRef st |}.

Definition setIntervalRef (v : bool) (st : State) : State :=
  {| isLoading := isLoading st; isScanning := isScanning st;
     error := error st; detectedEmotions := detectedEmotions st;
     modelsLoaded := modelsLoaded st; faceapi := faceapi st;
     imageMode := imageMode st; uploadedImage := uploadedImage st;
     intervalRef := v |}.

(** The first effect, [loadFaceApi]: [imported] tells whether
    [import('face-api.js')] resolved. *)
Definition loadFaceApi (imported : bool) (st : State) : State :=
  if imported then setFaceapi true st
  else
    let st :=
      setError (Some (str "Face detection library could not be loaded.")) st in
    setIsLoading false st.

(** The second effect, [loadModels]: it does nothing until face-api.js is
    there, and tries the alternative CDN when the first one fails. *)
Definition loadModels (primary alternative : bool) (st : State) : State :=
  if negb (faceapi st) then st
  else if primary then
    let st := setModelsLoaded true st in
    setIsLoading false st
  else if alternative then
    let st := setModelsLoaded true st in
    setIsLoading false st
  else
    let st :=
      setError
        (Some
           (str "Face detection models could not be loaded. Please check your internet connection."))
        st in
    setIsLoading false st.

(** The third effect, [startCamera]: it does nothing until the models are
    loaded; [granted] tells whether [getUserMedia] resolved. *)
Definition startCamera (granted : bool) (st : State) : State :=
  if negb (modelsLoaded st) then st
  else if granted then st
  else
    let st :=
      setError
        (Some (str "Could not access camera. Please check permissions.")) st in
    setIsLoading false st.

(** The fields of a [File] the handler reads. *)
Record File : Type := mkFile { type : jsstring; size : number }.

(** [10 * 1024 * 1024]. *)
Definition maxImageBytes : number := 10 * 1024 * 1024.

(** [handleImageUpload], up to [reader.readAsDataURL(file)]: the file handed
    to the reader, if any, and the state. *)
Definition handleImageUpload (file : option File) (st : State)
  : option File * State :=
  match file with
  | None => (None, st)
  | Some f =>
      if negb (startsWith (type f) (str "image/")) then
        (None,
         setError (Some (str "Please upload an image file (jpg, png, etc.)"))
           st)
      else if negb (Qle_bool (size f) maxImageBytes) then
        (None,
         setError
           (Some
              (str "Image file is too large. Please use an image under 10MB."))
           st)
      else (Some f, st)
  end.

(** [reader.onload], before its timer fires. *)
Definition readerOnload (imageUrl : jsstring) (st : State) : State :=
  let st := setUploadedImage (Some imageUrl) st in
  let st := setImageMode true st in
  setError None st.

(** [reader.onerror]. *)
Definition readerOnerror (st : State) : State :=
  setError (Some (str "Failed to read image file.")) st.

(** What the page and face-api.js report when a detection runs: whether the
    video (or image) element and the canvas are mounted, the element's
    dimensions, and the expressions of the faces found, in the order
    [detectAllFaces] lists them. *)
Record Probe : Type := mkProbe {
  element : bool;
  canvas : bool;
  width : number;
  height : number;
  detections : list object
}.

Definition Reading : Type := (object * number)%type.

(** [detectEmotions]; drawing on the canvas is left out. *)
Definition detectEmotions (probe : Probe) (st : State)
  : option Reading * State :=
  if negb (element probe) || negb (canvas probe) || negb (modelsLoaded st)
     || negb (faceapi st)
  then (None, st)
  else if Qeq_bool (width probe) 0 || Qeq_bool (height probe) 0
  then (None, st)
  else
    match detections probe with
    | expressions :: _ =>
        let st := setDetectedEmotions (Some expressions) st in
        let moodScore := FaceScanner.calculateMoodScore expressions in
        (Some (expressions, moodScore), st)
    | [] => (None, st)
    end.

(** [detectEmotionsFromImage]: the same steps on the uploaded image. *)
Definition detectEmotionsFromImage (probe : Probe) (st : State)
  : option Reading * State :=
  if negb (element probe) || negb (canvas probe) || negb (modelsLoaded st)
     || negb (faceapi st)
  then (None, st)
  else if Qeq_bool (width probe) 0 || Qeq_bool (height probe) 0
  then (None, st)
  else
    match detections probe with
    | expressions :: _ =>
        let st := setDetectedEmotions (Some expressions) st in
        let moodScore := FaceScanner.calculateMoodScore expressions in
        (Some (expressions, moodScore), st)
    | [] => (None, st)
    end.

Definition startScanning (st : State) : State :=
  let st := setIsScanning true st in
  let st := setDetectedEmotions None st in
  setIntervalRef true st.

Definition stopScanning (st : State) : State :=
  let st := setIsScanning false st in
  if intervalRef st then setIntervalRef false st else st.

Definition resetToCamera (st : State) : State :=
  let st := setImageMode false st in
  let st := setUploadedImage None st in
  let st := setDetectedEmotions None st in
  setError None st.

(** [captureEmotion], up to its callbacks: [Some reading] when
    [onEmotionDetected(reading)] and [onClose()] are called. *)
Definition captureEmotion (probe : Probe) (st : State)
  : option Reading * State :=
  let mode := imageMode st in
  let st := stopScanning st in
  let '(result, st) :=
    if mode then detectEmotionsFromImage probe st
    else detectEmotions probe st in
  match result with
  | Some reading => (Some reading, st)
  | None =>
      (None,
       setError
         (Some
            (if mode
             then
               str "No face detected in the image. Please try a different image."
             else
               str "No face detected. Please position your face in front of the camera."))
         st)
  end.

(** The detected-emotions chips of the scanner:
    [filter(v > 0.1).sort(b - a)]. *)
Definition detectedChips (expressions : object) : list (jsstring * number) :=
  sort (fun x y => snd y - snd x)
    (filter (fun entry => negb (Qle_bool (snd entry) 0.1)) expressions).

(** What can happen to a mounted scanner. *)
Inductive Event : Type :=
| FaceApiImport (imported : bool)
| ModelsFetch (primary alternative : bool)
| CameraRequest (granted : bool)
| SelectFile (file : option File)
| ReaderLoaded (imageUrl : jsstring)
| ReaderFailed
| ClickCameraTab
| ClickUploadTab
| ClickUseCamera
| ClickStart
| ClickStop
| Tick (probe : Probe)
| ImageSettled (probe : Probe)
| ClickCapture (probe : Probe).

Definition step (ev : Event) (st : State) : State :=
  match ev with
  | FaceApiImport imported => loadFaceApi imported st
  | ModelsFetch primary alternative => loadModels primary alternative st
  | CameraRequest granted => startCamera granted st
  | SelectFile file => snd (handleImageUpload file st)
  | ReaderLoaded imageUrl => readerOnload imageUrl st
  | ReaderFailed => readerOnerror st
  | ClickCameraTab => if imageMode st then resetToCamera st else st
  | ClickUploadTab => setImageMode true st
  | ClickUseCamera => resetToCamera st
  | ClickStart => startScanning st
  | ClickStop => stopScanning st
  | Tick probe => snd (detectEmotions probe st)
  | ImageSettled probe => snd (detectEmotionsFromImage probe st)
  | ClickCapture probe => snd (captureEmotion probe st)
  end.

End FaceScannerUI.

(** MoodAnalyzer mounts the scanner with
    [onEmotionDetected={handleFaceEmotionDetected}] and
    [onClose={() => setShowFaceScanner(false)}]. *)
Module FaceScanFlow.
Import JS Api.

Definition capture (analyze : MoodAnalyzer.AnalyzeApi)
    (probe : FaceScannerUI.Probe)
    (scanner : FaceScannerUI.State) (analyzer : MoodAnalyzer.State)
  : MoodAnalyzer.Effect * FaceScannerUI.State :=
  match FaceScannerUI.captureEmotion probe scanner with
  | (Some (expressions, moodScore), scanner) =>
      let '(requests, analyzer) :=
        MoodAnalyzer.handleFaceEmotionDetected analyze expressions moodScore
          analyzer in
      ((requests, MoodAnalyzer.setShowFaceScanner false analyzer), scanner)
  | (None, scanner) => (([], analyzer), scanner)
  end.

End FaceScanFlow.

(* ================================================================== *)
(** ** MoodDashboard.tsx: handleSeedDemoData                           *)
(* ================================================================== *)

Module MoodDashboardSeed.
Import JS Api MoodDashboard.

Definition setSeeding (v : bool) (st : State) : State :=
  {| history := history st; patterns := patterns st;
     recommendations := recommendations st; loading := loading st;
     seeding := v; showToast := showToast st |}.

Definition setShowToast (v : bool) (st : State) : State :=
  {| history := history st; patterns := patterns st;
     recommendations := recommendations st; loading := loading st;
     seeding := seeding st; showToast := v |}.

(** [handleSeedDemoData], until its three-second timer fires: whether
    [alert('Failed to load demo data. Please try again.')] was raised, and
    the state.  [seed] is the outcome of [devAPI.seedDemoData()], the other
    three those of the reload. *)
Definition handleSeedDemoData
    (seed : Outcome unit)
    (historyData : Outcome HistoryData)
    (patternsData : Outcome (option Patterns))
    (recsData : Outcome (option (list Recommendation.t)))
    (st : State) : bool * State :=
  let st := setSeeding true st in
  match seed with
  | Resolved _ =>
      let st := setShowToast true st in
      let st := loadDashboardData historyData patternsData recsData st in
      (false, setSeeding false st)
  | Rejected _ => (true, setSeeding false st)
  end.

End MoodDashboardSeed.

(* ================================================================== *)
(** ** CrisisResources.tsx                                             *)
(* ================================================================== *)

Module CrisisResources.
Import JS Api.

Record State : Type := mkState {
  resources : list Resource.t;
  loading : bool
}.

Definition initial : State := {| resources := []; loading := true |}.

(** [loadResources]: [setResources(response.resources || [])]; a failure is
    only logged. *)
Definition loadResources (response : Outcome (option (list Resource.t)))
    (st : State) : State :=
  match response with
  | Resolved (Some rs) => {| resources := rs; loading := false |}
  | Resolved None => {| resources := []; loading := false |}
  | Rejected _ => {| resources := resources st; loading := false |}
  end.

(** One card: the resource, and whether it is drawn in red
    ([resource.priority === 'IMMEDIATE']). *)
Definition card (r : Resource.t) : Resource.t * bool :=
  (r,
   match Resource.priority r with
   | Some p => jsstring_eqb p (str "IMMEDIATE")
   | None => false
   end).

Inductive View : Type :=
| LoadingResources
| ResourceList (cards : list (Resource.t * bool)).

Definition render (st : State) : View :=
  if loading st then LoadingResources
  else ResourceList (map card (resources st)).

End CrisisResources.

(* ================================================================== *)
(** ** More vocabulary                                                 *)
(* ================================================================== *)

Module MoreTerms.
Import JS Api.
Open Scope Q_scope.

(** The five mood labels, from 'Very Low' (0) to 'Excellent' (4). *)
Definition label_level (label : jsstring) : nat :=
  if jsstring_eqb label (str "Excellent") then 4
  else if jsstring_eqb label (str "Good") then 3
  else if jsstring_eqb label (str "Moderate") then 2
  else if jsstring_eqb label (str "Low") then 1
  else 0.

(** [shown] are the [k] strongest entries of [all], strongest first: all of
    them when [all] has at most [k], and otherwise [k] entries none of which
    is weaker than an entry left out. *)
Definition strongest (k : nat) (all shown : list (jsstring * number))
  : Prop :=
  StronglySorted (fun a b => snd b <= snd a) shown
  /\ exists rest,
       Permutation (shown ++ rest) all
       /\ (rest = [] \/ List.length shown = k)
       /\ (forall s r, In s shown -> In r rest -> snd r <= snd s).

(** [a] stands somewhere before [b] in [l]. *)
Definition before {A : Type} (l : list A) (a b : A) : Prop :=
  exists l1 l2 l3, l = l1 ++ a :: l2 ++ b :: l3.

(** The rank the recommendations are listed by: 1, 2, 3 for HIGH, MEDIUM
    and LOW, and 99 for every other priority, 'CRITICAL' included. *)
Definition rank (priority : jsstring) : number :=
  if jsstring_eqb priority (str "HIGH") then 1
  else if jsstring_eqb priority (str "MEDIUM") then 2
  else if jsstring_eqb priority (str "LOW") then 3
  else 99.

(** No priority of the list is the name of a member of
    [Object.prototype]. *)
Definition plain_priorities (recs : list Recommendation.t) : Prop :=
  Forall
    (fun r => includes prototypeMembers (Recommendation.priority r) = false)
    recs.

(** A file the upload handler lets through. *)
Definition acceptable (f : FaceScannerUI.File) : Prop :=
  FaceScannerUI.startsWith (FaceScannerUI.type f) (str "image/") = true
  /\ FaceScannerUI.size f <= 10485760.


(** The states a mounted scanner can reach. *)
Inductive scanner_reachable : FaceScannerUI.State -> Prop :=
| scanner_initial : scanner_reachable FaceScannerUI.initial
| scanner_step (ev : FaceScannerUI.Event) (st : FaceScannerUI.State) :
    scanner_reachable st ->
    scanner_reachable (FaceScannerUI.step ev st).

End MoreTerms.

(** More concrete inputs. *)
Module MoreSamples.
Import JS Api.
Open Scope Q_scope.

Definition face : object :=
  [(str "neutral", 0.05); (str "happy", 0.8); (str "sad", 0.1);
   (str "surprised", 0.05)].

Definition probe : FaceScannerUI.Probe :=
  {| FaceScannerUI.element := true; FaceScannerUI.canvas := true;
     FaceScannerUI.width := 640; FaceScannerUI.height := 480;
     FaceScannerUI.detections := [face] |}.

Definition ready : FaceScannerUI.State :=
  {| FaceScannerUI.isLoading := false; FaceScannerUI.isScanning := true;
     FaceScannerUI.error := None; FaceScannerUI.detectedEmotions := None;
     FaceScannerUI.modelsLoaded := true; FaceScannerUI.faceapi := true;
     FaceScannerUI.imageMode := false; FaceScannerUI.uploadedImage := None;
     FaceScannerUI.intervalRef := true |}.

Definition photo : FaceScannerUI.File :=
  {| FaceScannerUI.type := str "image/png"; FaceScannerUI.size := 10485760 |}.

Definition recommendation (priority : string) : Recommendation.t :=
  {| Recommendation.type := str "activity";
     Recommendation.title := str priority;
     Recommendation.description := str "a suggestion";
     Recommendation.priority := str priority;
     Recommendation.source := None;
     Recommendation.ai_enhanced := None |}.

(** What [Samples.backend] answers to the emotion text of [face]. *)
Definition answer : MoodAnalysisResponse.t :=
  {| MoodAnalysisResponse.success := true;
     MoodAnalysisResponse.mood_analysis :=
       {| MoodAnalysis.sentiment :=
            {| Sentiment.label := str "NEUTRAL"; Sentiment.score := 0.5 |};
          MoodAnalysis.emotions := [(str "neutral", 0.9)];
          MoodAnalysis.mood_score := 5;
          MoodAnalysis.text_length :=
            inject_Z
              (Z.of_nat (List.length (MoodAnalyzer.emotionText face))) |};
     MoodAnalysisResponse.crisis_check :=
       Backend.crisis_check Samples.catalog Samples.resource_catalog 2
         (MoodAnalyzer.emotionText face) None;
     MoodAnalysisResponse.recommendations := [] |}.

Definition failure : RequestError.t :=
  {| RequestError.detail := None;
     RequestError.message := str "Network Error" |}.

End MoreSamples.

(* ================================================================== *)
(** ** The binary64 format                                             *)
(* ================================================================== *)

(** Rocq specifies its primitive floats by the functions of [SpecFloat]
    ([Prim2SF] maps a float to its sign, mantissa and exponent).  These are
    the notions used to reason about their rounding. *)
Module Rounding.
Local Open Scope Z_scope.

Definition fexp64 (e : Z) : Z := Z.max (e - 53) (-1074).

Definition digits (m : positive) : Z := Zpos (digits2_pos m).


Definition exact (m : Z) : shr_record :=
  {| shr_m := m; shr_r := false; shr_s := false |}.

Definition rne (r : shr_record) : Z :=
  round_nearest_even (shr_m r) (loc_of_shr_record r).

Definition shift_right (n : Z) (r : shr_record) : shr_record :=
  match n with
  | Zpos p => iter_pos shr_1 p r
  | _ => r
  end.

(** The two shifts of [binary_round_aux] on an exact input: the mantissa and
    the exponent it ends with. *)
Definition round_core (M e : Z) : Z * Z :=
  let n1 := fexp64 (Zdigits2 M + e) - e in
  let r1 := shift_right n1 (exact M) in
  let e1 := e + Z.max n1 0 in
  let q := rne r1 in
  let n2 := fexp64 (Zdigits2 q + e1) - e1 in
  (shr_m (shift_right n2 (exact q)), e1 + Z.max n2 0).

(** The exponent the result is aimed at, and the mantissa rounded to it. *)
Definition target (M e : Z) : Z := fexp64 (Zdigits2 M + e).

Definition stage1 (M e : Z) : Z :=
  rne (shift_right (target M e - e) (exact M)).

(** A mantissa rounded up to [2^53] is renormalised. *)
Definition carry (q E : Z) : Z * Z :=
  if q =? 9007199254740992 then (4503599627370496, E + 1) else (q, E).

Definition pack (s : bool) (me : Z * Z) : spec_float :=
  match fst me with
  | Z0 => S754_zero s
  | Zpos m =>
      if snd me <=? emax - prec then S754_finite s m (snd me)
      else S754_infinity s
  | Zneg _ => S754_nan
  end.



(** The sign a number carries; NaN carries none. *)
Definition signed (s : bool) (x : spec_float) : Prop :=
  match x with
  | S754_zero s' | S754_infinity s' | S754_finite s' _ _ => s' = s
  | S754_nan => False
  end.









End Rounding.

(* ================================================================== *)
(** ** Facts about the built-ins                                       *)
(* ================================================================== *)

Module JSFacts.
Import JS.

Lemma jsstring_eqb_eq (a b : jsstring) : jsstring_eqb a b = true <-> a = b.
Proof.
  revert b; induction a as [|x a IH]; intros [|y b]; simpl;
    try (split; [discriminate | discriminate]); try tauto.
  rewrite andb_true_iff, N.eqb_eq, IH.
  split.
  - intros [-> ->]; reflexivity.
  - intros H; inversion H; auto.
Qed.

Lemma jsstring_eqb_refl (a : jsstring) : jsstring_eqb a a = true.
Proof. apply jsstring_eqb_eq; reflexivity. Qed.

Lemma jsstring_eqb_neq (a b : jsstring) : jsstring_eqb a b = false <-> a <> b.
Proof.
  rewrite <- jsstring_eqb_eq.
  destruct (jsstring_eqb a b); split; congruence.
Qed.

Lemma jsstring_eqb_sym (a b : jsstring) : jsstring_eqb a b = jsstring_eqb b a.
Proof.
  destruct (jsstring_eqb b a) eqn:E.
  - apply jsstring_eqb_eq in E; subst; apply jsstring_eqb_refl.
  - apply jsstring_eqb_neq in E; apply jsstring_eqb_neq; congruence.
Qed.



End JSFacts.

(* ================================================================== *)
(** ** Rounding to binary64                                            *)
(* ================================================================== *)

Module RoundingFacts.
Import Rounding.
Local Open Scope Z_scope.

Lemma fexp_fexp64 (e : Z) : fexp prec emax e = fexp64 e.
Proof. reflexivity. Qed.

Lemma digits_pos (m : positive) : 1 <= digits m.
Proof. unfold digits; lia. Qed.

Lemma digits_xO (m : positive) : digits (xO m) = digits m + 1.
Proof. unfold digits; simpl; lia. Qed.

Lemma digits_xI (m : positive) : digits (xI m) = digits m + 1.
Proof. unfold digits; simpl; lia. Qed.

Lemma digits_bounds (m : positive) :
  2 ^ (digits m - 1) <= Zpos m < 2 ^ digits m.
Proof.
  induction m as [m IH|m IH|].
  - rewrite digits_xI.
    replace (digits m + 1 - 1) with (Z.succ (digits m - 1)) by lia.
    replace (digits m + 1) with (Z.succ (digits m)) by lia.
    pose proof (digits_pos m).
    rewrite !Z.pow_succ_r by lia. lia.
  - rewrite digits_xO.
    replace (digits m + 1 - 1) with (Z.succ (digits m - 1)) by lia.
    replace (digits m + 1) with (Z.succ (digits m)) by lia.
    pose proof (digits_pos m).
    rewrite !Z.pow_succ_r by lia. lia.
  - unfold digits; simpl. lia.
Qed.


(** the digits of a number are fixed by its bounds *)
Lemma digits_unique (m : positive) (d : Z) :
  2 ^ (d - 1) <= Zpos m < 2 ^ d -> digits m = d.
Proof.
  intros [H1 H2].
  pose proof (digits_bounds m) as [B1 B2].
  pose proof (digits_pos m).
  destruct (Z.lt_trichotomy (digits m) d) as [Hlt|[Heq|Hgt]]; [|assumption|].
  - exfalso.
    assert (2 ^ digits m <= 2 ^ (d - 1)) by (apply Z.pow_le_mono_r; lia).
    lia.
  - exfalso.
    destruct (Z_le_gt_dec 0 d).
    + assert (2 ^ d <= 2 ^ (digits m - 1)) by (apply Z.pow_le_mono_r; lia).
      lia.
    + rewrite (Z.pow_neg_r 2 d) in H2 by lia. lia.
Qed.

Lemma digits_shift (m : positive) (k : Z) (m' : positive) :
  0 <= k -> Zpos m' = Zpos m * 2 ^ k -> digits m' = digits m + k.
Proof.
  intros Hk H. apply digits_unique. rewrite H.
  pose proof (digits_bounds m) as [B1 B2].
  pose proof (digits_pos m).
  replace (digits m + k - 1) with ((digits m - 1) + k) by lia.
  rewrite !Z.pow_add_r by lia.
  assert (0 < 2 ^ k) by (apply Z.pow_pos_nonneg; lia).
  nia.
Qed.

Lemma shr_shift_right (r : shr_record) (e n : Z) :
  shr r e n = (shift_right n r, e + Z.max n 0).
Proof.
  destruct n as [|p|p]; simpl; f_equal; lia.
Qed.

Lemma binary_round_aux_core (s : bool) (M e : Z) :
  binary_round_aux prec emax s M e loc_Exact = pack s (round_core M e).
Proof.
  unfold binary_round_aux, shr_fexp, round_core, pack.
  rewrite !fexp_fexp64.
  change (shr_record_of_loc M loc_Exact) with (exact M).
  rewrite shr_shift_right.
  change (round_nearest_even (shr_m (shift_right (fexp64 (Zdigits2 M + e) - e) (exact M)))
            (loc_of_shr_record (shift_right (fexp64 (Zdigits2 M + e) - e) (exact M))))
    with (rne (shift_right (fexp64 (Zdigits2 M + e) - e) (exact M))).
  set (q := rne _).
  change (shr_record_of_loc q loc_Exact) with (exact q).
  rewrite shr_shift_right. simpl fst; simpl snd.
  reflexivity.
Qed.

(** *** One shift *)

Lemma shr_1_nonneg (r : shr_record) : 0 <= shr_m r -> 0 <= shr_m (shr_1 r).
Proof.
  destruct r as [m br bs]; simpl.
  destruct m as [|[p|p|]|p]; simpl; lia.
Qed.


Lemma iter_shr_1_nonneg (p : positive) (r : shr_record) :
  0 <= shr_m r -> 0 <= shr_m (iter_pos shr_1 p r).
Proof.
  revert r; induction p as [p IH|p IH|]; intros r H; simpl.
  - apply IH, IH, shr_1_nonneg, H.
  - apply IH, IH, H.
  - apply shr_1_nonneg, H.
Qed.


Lemma shift_right_nonneg (n : Z) (r : shr_record) :
  0 <= shr_m r -> 0 <= shr_m (shift_right n r).
Proof.
  destruct n; simpl; auto using iter_shr_1_nonneg.
Qed.


(** *** Rounding to nearest, ties to even *)

Lemma rne_bounds (r : shr_record) : shr_m r <= rne r <= shr_m r + 1.
Proof.
  destruct r as [m [|] [|]]; unfold rne; simpl; try lia.
  destruct (Z.even m); lia.
Qed.



(** *** The mantissa after a shift *)

Lemma shr_1_div (r : shr_record) :
  0 <= shr_m r -> shr_m (shr_1 r) = shr_m r / 2.
Proof.
  destruct r as [m br bs]; cbn [shr_m].
  destruct m as [|[p|p|]|p]; intros H; cbn [shr_1 shr_m];
    [reflexivity | | | reflexivity | lia].
  - apply (Z.div_unique (Zpos p~1) 2 (Zpos p) 1); lia.
  - apply (Z.div_unique (Zpos p~0) 2 (Zpos p) 0); lia.
Qed.

Lemma pow2_xO (p : positive) : 2 ^ Zpos p~0 = 2 ^ Zpos p * 2 ^ Zpos p.
Proof.
  replace (Zpos p~0) with (Zpos p + Zpos p) by lia.
  apply Z.pow_add_r; lia.
Qed.

Lemma pow2_xI (p : positive) : 2 ^ Zpos p~1 = 2 * (2 ^ Zpos p * 2 ^ Zpos p).
Proof.
  replace (Zpos p~1) with (1 + (Zpos p + Zpos p)) by lia.
  rewrite Z.pow_add_r by lia. rewrite Z.pow_1_r.
  rewrite Z.pow_add_r by lia. reflexivity.
Qed.

Lemma pow2_pos (k : Z) : 0 <= k -> 0 < 2 ^ k.
Proof. intros; apply Z.pow_pos_nonneg; lia. Qed.

Lemma iter_shr_1_div (p : positive) (r : shr_record) :
  0 <= shr_m r -> shr_m (iter_pos shr_1 p r) = shr_m r / 2 ^ Zpos p.
Proof.
  revert r; induction p as [p IH|p IH|]; intros r H; cbn [iter_pos].
  - rewrite IH by (apply iter_shr_1_nonneg, shr_1_nonneg, H).
    rewrite IH by (apply shr_1_nonneg, H).
    rewrite shr_1_div by exact H.
    pose proof (pow2_pos (Zpos p)).
    rewrite pow2_xI, !Z.div_div by lia. reflexivity.
  - rewrite IH by (apply iter_shr_1_nonneg, H).
    rewrite IH by exact H.
    pose proof (pow2_pos (Zpos p)).
    rewrite pow2_xO, !Z.div_div by lia. reflexivity.
  - rewrite shr_1_div by exact H. reflexivity.
Qed.

Lemma shift_right_div (n : Z) (r : shr_record) :
  0 <= shr_m r -> 0 <= n -> shr_m (shift_right n r) = shr_m r / 2 ^ n.
Proof.
  intros H Hn; destruct n as [|p|p]; cbn [shift_right].
  - rewrite Z.pow_0_r, Z.div_1_r; reflexivity.
  - apply iter_shr_1_div, H.
  - lia.
Qed.

(** *** Shifts that lose nothing *)

Lemma shr_1_exact (M : Z) : 0 <= M -> shr_1 (exact (2 * M)) = exact M.
Proof.
  intros H; destruct M as [|p|p]; [reflexivity | reflexivity | lia].
Qed.

Lemma iter_shr_1_exact (p : positive) (M : Z) :
  0 <= M -> iter_pos shr_1 p (exact (M * 2 ^ Zpos p)) = exact M.
Proof.
  revert M; induction p as [p IH|p IH|]; intros M H; cbn [iter_pos].
  - pose proof (pow2_pos (Zpos p)).
    replace (M * 2 ^ Zpos p~1) with (2 * ((M * 2 ^ Zpos p) * 2 ^ Zpos p))
      by (rewrite pow2_xI; lia).
    rewrite shr_1_exact by nia.
    rewrite IH by nia. apply IH, H.
  - pose proof (pow2_pos (Zpos p)).
    replace (M * 2 ^ Zpos p~0) with ((M * 2 ^ Zpos p) * 2 ^ Zpos p)
      by (rewrite pow2_xO; lia).
    rewrite IH by nia. apply IH, H.
  - rewrite Z.pow_1_r. replace (M * 2) with (2 * M) by lia.
    apply shr_1_exact, H.
Qed.

Lemma shift_right_exact (k M : Z) :
  0 <= M -> 0 <= k -> shift_right k (exact (M * 2 ^ k)) = exact M.
Proof.
  intros H Hk; destruct k as [|p|p]; cbn [shift_right].
  - rewrite Z.pow_0_r, Z.mul_1_r; reflexivity.
  - apply iter_shr_1_exact, H.
  - lia.
Qed.

Lemma iter_pos_iter (A : Type) (f : A -> A) (p : positive) (x : A) :
  iter_pos f p x = Pos.iter f x p.
Proof.
  revert x; induction p as [p IH|p IH|]; intros x; cbn [iter_pos Pos.iter].
  - rewrite !IH. rewrite <- !Pos.iter_swap. reflexivity.
  - rewrite !IH. reflexivity.
  - reflexivity.
Qed.

Lemma shift_right_add (a b : Z) (r : shr_record) :
  0 <= a -> 0 <= b ->
  shift_right (a + b) r = shift_right b (shift_right a r).
Proof.
  intros Ha Hb.
  destruct a as [|pa|pa]; [reflexivity | | lia].
  destruct b as [|pb|pb]; [rewrite Z.add_0_r; reflexivity | | lia].
  cbn [Z.add shift_right].
  rewrite !iter_pos_iter. rewrite Pos.add_comm. apply Pos.iter_add.
Qed.

(** *** The two stages of a rounding *)

Lemma pow2_53 : 2 ^ 53 = 9007199254740992.
Proof. reflexivity. Qed.

Lemma pow2_52 : 2 ^ 52 = 4503599627370496.
Proof. reflexivity. Qed.

Lemma digits_lt (m : positive) (k : Z) :
  0 <= k -> Zpos m < 2 ^ k -> digits m <= k.
Proof.
  intros Hk H.
  destruct (Z_le_gt_dec (digits m) k) as [|Hgt]; [assumption | exfalso].
  pose proof (digits_bounds m) as [B _].
  assert (2 ^ k <= 2 ^ (digits m - 1)) by (apply Z.pow_le_mono_r; lia).
  lia.
Qed.

Lemma shift_right_nonpos (n : Z) (r : shr_record) :
  n <= 0 -> shift_right n r = r.
Proof. destruct n; [reflexivity | lia | reflexivity]. Qed.

Lemma renormalise (q E : Z) :
  0 <= q <= 9007199254740992 -> -1074 <= E ->
  (shr_m (shift_right (fexp64 (Zdigits2 q + E) - E) (exact q)),
   E + Z.max (fexp64 (Zdigits2 q + E) - E) 0)
  = carry q E.
Proof.
  intros Hq HE; unfold carry.
  destruct (Z.eqb_spec q 9007199254740992) as [->|Hne].
  - replace (fexp64 (Zdigits2 9007199254740992 + E) - E) with 1
      by (unfold fexp64; cbn [Zdigits2 digits2_pos Pos.succ]; lia).
    reflexivity.
  - assert (Hn : fexp64 (Zdigits2 q + E) - E <= 0).
    { destruct q as [|p|p]; [unfold fexp64; cbn [Zdigits2]; lia | | lia].
      cbn [Zdigits2]. fold (digits p).
      assert (digits p <= 53).
      { apply digits_lt; [lia|]. rewrite pow2_53; lia. }
      unfold fexp64; lia. }
    rewrite shift_right_nonpos by exact Hn.
    cbn [shr_m exact]. f_equal; lia.
Qed.

Lemma stage1_bounds (m : positive) (e : Z) :
  e <= target (Zpos m) e ->
  0 <= stage1 (Zpos m) e <= 9007199254740992
  /\ (target (Zpos m) e = digits m + e - 53 ->
      4503599627370496 <= stage1 (Zpos m) e).
Proof.
  intros HP; unfold stage1.
  set (n := target (Zpos m) e - e) in *.
  assert (Hn : 0 <= n) by (unfold n; lia).
  pose proof (rne_bounds (shift_right n (exact (Zpos m)))) as B.
  rewrite shift_right_div in B by (cbn [shr_m exact]; lia).
  cbn [shr_m exact] in B.
  pose proof (digits_bounds m) as [D1 D2].
  pose proof (digits_pos m) as Dp.
  pose proof (pow2_pos n Hn) as Pn.
  assert (Hd : digits m <= n + 53).
  { unfold n, target, fexp64; cbn [Zdigits2]; fold (digits m); lia. }
  assert (Hq : 0 <= Zpos m / 2 ^ n < 9007199254740992).
  { split; [apply Z.div_pos; lia|].
    apply Z.div_lt_upper_bound; [lia|].
    rewrite <- pow2_53, <- Z.pow_add_r by lia.
    assert (2 ^ digits m <= 2 ^ (n + 53)) by (apply Z.pow_le_mono_r; lia).
    lia. }
  split; [lia|].
  intros Hnorm.
  assert (Hn' : n = digits m - 53) by (unfold n; lia).
  assert (4503599627370496 <= Zpos m / 2 ^ n); [|lia].
  apply Z.div_le_lower_bound; [lia|].
  rewrite <- pow2_52, <- Z.pow_add_r by lia.
  replace (n + 52) with (digits m - 1) by lia. exact D1.
Qed.

Lemma round_core_stages (m : positive) (e : Z) :
  e <= target (Zpos m) e ->
  round_core (Zpos m) e = carry (stage1 (Zpos m) e) (target (Zpos m) e).
Proof.
  intros HP. unfold round_core.
  fold (target (Zpos m) e). fold (stage1 (Zpos m) e).
  replace (e + Z.max (target (Zpos m) e - e) 0) with (target (Zpos m) e)
    by lia.
  apply renormalise.
  - apply stage1_bounds, HP.
  - unfold target, fexp64; lia.
Qed.

(** *** Rounding is monotone at a fixed exponent *)

Lemma carry_nonneg (q E : Z) : 0 <= q -> 0 <= fst (carry q E).
Proof. unfold carry; destruct (q =? 9007199254740992); cbn [fst]; lia. Qed.





Lemma round_core_nonneg (m : positive) (e : Z) :
  e <= target (Zpos m) e -> 0 <= fst (round_core (Zpos m) e).
Proof.
  intros HP; rewrite (round_core_stages m e HP).
  apply carry_nonneg, stage1_bounds, HP.
Qed.

(** *** Rounding does not depend on how the input is scaled *)

Lemma round_core_scale (m : positive) (e k : Z) :
  0 <= k -> e <= target (Zpos m) e ->
  round_core (Zpos m * 2 ^ k) (e - k) = round_core (Zpos m) e.
Proof.
  intros Hk HP.
  pose proof (pow2_pos k Hk) as Pk.
  assert (Hpos : 0 < Zpos m * 2 ^ k) by nia.
  destruct (Zpos m * 2 ^ k) as [|m'|m'] eqn:Em; try lia.
  assert (Hd : digits m' = digits m + k) by (apply digits_shift; auto).
  assert (HT : target (Zpos m') (e - k) = target (Zpos m) e).
  { unfold target; cbn [Zdigits2]; fold (digits m') (digits m).
    rewrite Hd; f_equal; lia. }
  unfold round_core.
  fold (target (Zpos m') (e - k)) (target (Zpos m) e).
  rewrite HT.
  replace (target (Zpos m) e - (e - k)) with (k + (target (Zpos m) e - e))
    by lia.
  rewrite shift_right_add by lia.
  rewrite <- Em, shift_right_exact by lia.
  replace (e - k + Z.max (k + (target (Zpos m) e - e)) 0)
    with (e + Z.max (target (Zpos m) e - e) 0) by lia.
  reflexivity.
Qed.


(** *** Packing ordered pairs gives ordered numbers *)




(** *** [binary_round] and [binary_normalize] *)

Lemma iter_xO (d m : positive) :
  Zpos (Pos.iter xO m d) = Zpos m * 2 ^ Zpos d.
Proof.
  induction d as [|d IH] using Pos.peano_ind.
  - cbn [Pos.iter]. rewrite Z.pow_1_r. lia.
  - rewrite Pos.iter_succ, Pos2Z.inj_succ, Z.pow_succ_r by lia.
    rewrite Pos2Z.inj_xO, IH. lia.
Qed.

Lemma shl_align_spec (m : positive) (e e' : Z) :
  snd (shl_align m e e') = Z.min e e'
  /\ Zpos (fst (shl_align m e e')) = Zpos m * 2 ^ (e - Z.min e e').
Proof.
  unfold shl_align.
  destruct (e' - e) as [|d|d] eqn:E; cbn [fst snd].
  - replace (Z.min e e') with e by lia.
    rewrite Z.sub_diag, Z.pow_0_r; lia.
  - replace (Z.min e e') with e by lia.
    rewrite Z.sub_diag, Z.pow_0_r; lia.
  - replace (Z.min e e') with e' by lia.
    replace (e - e') with (Zpos d) by lia.
    split; [reflexivity | apply iter_xO].
Qed.

Lemma target_scale (m m' : positive) (e k : Z) :
  0 <= k -> Zpos m' = Zpos m * 2 ^ k ->
  target (Zpos m') (e - k) = target (Zpos m) e.
Proof.
  intros Hk H; unfold target; cbn [Zdigits2]; fold (digits m') (digits m).
  rewrite (digits_shift m k m' Hk H); f_equal; lia.
Qed.

Lemma binary_round_any (s : bool) (m : positive) (e J : Z) :
  0 <= J -> e - J <= target (Zpos m) e ->
  binary_round prec emax s m e = pack s (round_core (Zpos m * 2 ^ J) (e - J)).
Proof.
  intros HJ HT. unfold binary_round.
  rewrite fexp_fexp64. change (Zpos (digits2_pos m)) with (Zdigits2 (Zpos m)).
  fold (target (Zpos m) e).
  pose proof (shl_align_spec m e (target (Zpos m) e)) as [Hs Hf].
  destruct (shl_align m e (target (Zpos m) e)) as [m' e'']; cbn [fst snd] in *.
  rewrite binary_round_aux_core. f_equal.
  rewrite <- Hs in Hf.
  assert (Hj : 0 <= e - e'') by lia.
  pose proof (target_scale m m' e (e - e'') Hj Hf) as HT'.
  replace (e - (e - e'')) with e'' in HT' by lia.
  rewrite <- (round_core_scale m' e'' (J - (e - e''))) by lia.
  f_equal; [|lia].
  rewrite Hf, <- Z.mul_assoc, <- Z.pow_add_r by lia.
  do 2 f_equal; lia.
Qed.

Lemma binary_round_aligned (s : bool) (m : positive) (e : Z) :
  exists m' e',
    binary_round prec emax s m e = pack s (round_core (Zpos m') e')
    /\ e' <= target (Zpos m') e'
    /\ target (Zpos m') e' = target (Zpos m) e
    /\ e' = Z.min e (target (Zpos m) e)
    /\ Zpos m' = Zpos m * 2 ^ (e - e').
Proof.
  set (J := Z.max 0 (e - target (Zpos m) e)).
  assert (HJ : 0 <= J) by (unfold J; lia).
  pose proof (pow2_pos J HJ) as PJ.
  assert (Hpos : 0 < Zpos m * 2 ^ J) by nia.
  destruct (Zpos m * 2 ^ J) as [|m'|m'] eqn:Em; try lia.
  exists m', (e - J).
  assert (HT : target (Zpos m') (e - J) = target (Zpos m) e)
    by (apply target_scale; auto).
  split; [|split; [|split; [|split]]].
  - rewrite <- Em; apply binary_round_any; unfold J; lia.
  - rewrite HT; unfold J; lia.
  - exact HT.
  - unfold J; lia.
  - rewrite <- Em; f_equal; f_equal; unfold J; lia.
Qed.

Lemma pack_signed (s : bool) (a : Z * Z) :
  0 <= fst a -> signed s (pack s a).
Proof.
  destruct a as [m e]; unfold pack; cbn [fst snd]; intros H.
  destruct m as [|m|m]; [reflexivity | | lia].
  destruct (e <=? emax - prec); reflexivity.
Qed.

Lemma binary_round_signed (s : bool) (m : positive) (e : Z) :
  signed s (binary_round prec emax s m e).
Proof.
  destruct (binary_round_aligned s m e) as (m' & e' & -> & HP & _).
  apply pack_signed, round_core_nonneg, HP.
Qed.








(** *** Numbers as multiples of a common power of two *)















(** *** The order of the numbers *)

Lemma SFleb_refl (x : spec_float) : x <> S754_nan -> SFleb x x = true.
Proof.
  destruct x as [s|s| |s m e]; intros H; try congruence;
    unfold SFleb, SFcompare; try (destruct s; reflexivity).
  rewrite Z.compare_refl, Pos.compare_cont_refl. destruct s; reflexivity.
Qed.










(** *** Addition, subtraction and the product by 3 are monotone *)














(** *** Signs *)

Lemma SFadd_nonneg (x y : spec_float) :
  signed false x -> SFleb (S754_zero false) y = true ->
  signed false (SFadd prec emax x y).
Proof.
  destruct x as [sx|sx| |sx mx ex], y as [sy|sy| |sy my ey];
    cbn [signed]; intros Hx Hy; try contradiction; try discriminate Hy;
    subst; try (destruct sy; try discriminate Hy; reflexivity).
  destruct sy; [discriminate Hy|].
  unfold SFadd, binary_normalize; cbn [cond_Zopp Z.add].
  apply binary_round_signed.
Qed.



End RoundingFacts.

(* ================================================================== *)
(** ** Doubles: order, sums, differences and products by 3             *)
(* ================================================================== *)

Module DoubleFacts.
Import Rounding RoundingFacts Double.
Open Scope float_scope.

Lemma SFeqb_refl (x : spec_float) :
  SFeqb x x = negb match x with S754_nan => true | _ => false end.
Proof.
  destruct x as [s|s| |s m e]; unfold SFeqb, SFcompare;
    try (destruct s; reflexivity); try reflexivity.
  rewrite Z.compare_refl, Pos.compare_cont_refl; destruct s; reflexivity.
Qed.

Lemma is_nan_spec (x : double) :
  is_nan x = true <-> Prim2SF x = S754_nan.
Proof.
  unfold is_nan; rewrite eqb_spec, SFeqb_refl.
  destruct (Prim2SF x); cbn; split; congruence.
Qed.

Lemma not_nan_spec (x : double) :
  is_nan x = false <-> Prim2SF x <> S754_nan.
Proof.
  rewrite <- is_nan_spec; destruct (is_nan x); split; congruence.
Qed.




Lemma leb_refl (x : double) : is_nan x = false -> (x <=? x) = true.
Proof. rewrite leb_spec, not_nan_spec; apply SFleb_refl. Qed.












(** *** Finite operands *)





(** *** Finite numbers, and sums that stay away from NaN and -0 *)






End DoubleFacts.

(* ================================================================== *)
(** ** calculateMoodScore, read over the rationals                     *)
(* ================================================================== *)

Module FaceScannerFacts.
Import JS JSFacts FaceScanner.
Open Scope Q_scope.

Lemma clamp_le_compat (s t : number) : s <= t -> clamp s <= clamp t.
Proof.
  intros H; unfold clamp.
  apply Q.max_le_compat_l, Q.min_le_compat_l, H.
Qed.

Lemma clamp_eq_compat (s t : number) : s == t -> clamp s == clamp t.
Proof.
  intros H; apply Qle_antisym; apply clamp_le_compat; lra.
Qed.

Lemma clamp_inside (s : number) : 0 <= s -> s <= 10 -> clamp s == s.
Proof.
  intros H0 H10; unfold clamp.
  rewrite (Q.min_r 10 s H10).
  apply Q.max_r, H0.
Qed.

(** The running score of a mapping whose intensities are all zero stays at
    its start value. *)
Lemma loop_all_zero (l : object) (a : number) :
  (forall emotion value, In (emotion, value) l -> value == 0) ->
  fold_left score_step l a == a.
Proof.
  revert a; induction l as [|[emotion value] l IH]; intros a Hz.
  - reflexivity.
  - assert (Hv : value == 0) by (apply (Hz emotion); left; reflexivity).
    change (fold_left score_step ((emotion, value) :: l) a)
      with (fold_left score_step l (score_step a (emotion, value))).
    rewrite IH by (intros e v Hin; apply (Hz e); right; exact Hin).
    unfold score_step.
    destruct (includes positiveEmotions emotion);
      [| destruct (includes negativeEmotions emotion)]; lra.
Qed.

(** C3. For every emotion mapping all of whose intensities are zero,
    [calculateMoodScore] returns the neutral baseline 5. *)
Theorem calculateMoodScore_all_zero (expressions : object) :
  (forall emotion value, In (emotion, value) expressions -> value == 0) ->
  calculateMoodScore expressions == 5.
Proof.
  intros Hz; unfold calculateMoodScore.
  rewrite (clamp_eq_compat _ 5) by (apply loop_all_zero, Hz).
  apply clamp_inside; lra.
Qed.

Lemma calculateMoodScore_all_zero_witness :
  calculateMoodScore
    [(str "happy", 0); (str "sad", 0); (str "neutral", 0); (str "angry", 0)]
  == 5.
Proof.
  apply calculateMoodScore_all_zero.
  intros emotion value [H | [H | [H | [H | []]]]];
    inversion H; reflexivity.
Defined.

End FaceScannerFacts.

(* ================================================================== *)
(** ** calculateMoodScore, as it runs                                  *)
(* ================================================================== *)

Module FaceScanner64Facts.
Import JS JSFacts Rounding RoundingFacts Double DoubleFacts FaceScanner64.
Open Scope float_scope.









(** *** The loop *)













(** C4, as the code has it.  For the mapping {happy: 0.8, sad: 0.1},
    [calculateMoodScore] returns 5 + 0.8*3 - 0.1*3 as binary64 evaluates
    it: 7.1000000000000005, the double next above 7.1. *)
Theorem calculateMoodScore_happy_sad :
  calculateMoodScore [(str "happy", 0.8); (str "sad", 0.1)]
  = 5 + 0.8 * 3 - 0.1 * 3
  /\ 5 + 0.8 * 3 - 0.1 * 3 = 7.1000000000000005
  /\ 7.1000000000000005 = next_up 7.1.
Proof. repeat split. Qed.

(** The score of {happy: 0.8, sad: 0.1} is not the number 7.1: it is
    above it. *)
Lemma calculateMoodScore_happy_sad_differs :
  (calculateMoodScore [(str "happy", 0.8); (str "sad", 0.1)] =? 7.1) = false
  /\ (7.1 <? calculateMoodScore [(str "happy", 0.8); (str "sad", 0.1)])
     = true.
Proof. split; reflexivity. Qed.




(** *** Mappings of zeros *)

Lemma zero_cases (v : double) : (v =? 0) = true -> v = 0 \/ v = neg_zero.
Proof.
  rewrite eqb_spec; change (Prim2SF 0) with (S754_zero false); intros H.
  destruct (Prim2SF v) as [s|s| |s m e] eqn:E; try discriminate H;
    try (destruct s; discriminate H).
  destruct s; [right | left]; apply Prim2SF_inj; rewrite E; reflexivity.
Qed.

Lemma loop_all_zero64 (l : dictionary) :
  Forall (fun entry => (snd entry =? 0) = true) l ->
  fold_left score_step l 5 = 5.
Proof.
  induction 1 as [|[emotion value] l Hv _ IH]; cbn [fold_left];
    [reflexivity|].
  replace (score_step 5 (emotion, value)) with 5%float; [exact IH|].
  unfold score_step; cbn [snd] in Hv.
  destruct (zero_cases value Hv) as [-> | ->];
    destruct (includes positiveEmotions emotion);
    try reflexivity;
    destruct (includes negativeEmotions emotion); reflexivity.
Qed.

(** On doubles too, a mapping all of whose intensities are zero, of either
    sign, scores exactly 5. *)
Theorem calculateMoodScore64_all_zero (expressions : dictionary) :
  Forall (fun entry => (snd entry =? 0) = true) expressions ->
  calculateMoodScore expressions = 5.
Proof.
  intros H; unfold calculateMoodScore.
  rewrite (loop_all_zero64 expressions H); reflexivity.
Qed.

Lemma calculateMoodScore64_all_zero_witness :
  calculateMoodScore
    [(str "happy", 0); (str "sad", neg_zero); (str "neutral", 0)]
  = 5.
Proof.
  apply calculateMoodScore64_all_zero.
  repeat constructor.
Defined.

End FaceScanner64Facts.

(* ================================================================== *)
(** ** String.prototype.trim                                           *)
(* ================================================================== *)

Module TrimFacts.
Import JS Terms.

Lemma trimStart_blank (s : jsstring) : blank s -> trimStart s = [].
Proof.
  induction 1 as [|c s Hc _ IH]; simpl.
  - reflexivity.
  - rewrite Hc; exact IH.
Qed.

(** What [trimStart] returns is empty or starts with a character that is
    not white space. *)
Lemma trimStart_head (s : jsstring) :
  match trimStart s with
  | [] => blank s
  | c :: _ => is_whitespace c = false
  end.
Proof.
  induction s as [|c s IH]; simpl.
  - constructor.
  - destruct (is_whitespace c) eqn:Hc.
    + destruct (trimStart s); [constructor; assumption | exact IH].
    + exact Hc.
Qed.

Lemma trimStart_nil (s : jsstring) : trimStart s = [] -> blank s.
Proof.
  intros H; generalize (trimStart_head s); rewrite H; auto.
Qed.

Lemma blank_rev (s : jsstring) : blank (rev s) -> blank s.
Proof.
  unfold blank; rewrite !Forall_forall.
  intros H c Hc; apply H, in_rev; rewrite rev_involutive; exact Hc.
Qed.

(** [!text.trim()] holds exactly for the empty string and the strings made
    of white space only. *)
Lemma trim_nil_iff (s : jsstring) : trim s = [] <-> blank s.
Proof.
  unfold trim, trimEnd; split.
  - intros H.
    assert (H1 : trimStart (rev (trimStart s)) = []).
    { destruct (trimStart (rev (trimStart s))) as [|c l]; [reflexivity|].
      simpl in H; destruct (rev l); discriminate H. }
    apply trimStart_nil, blank_rev in H1.
    generalize (trimStart_head s).
    destruct (trimStart s) as [|c l]; [auto|].
    intros Hc; inversion H1; congruence.
  - intros H; rewrite (trimStart_blank s H); reflexivity.
Qed.

Lemma truthy_trim_blank (s : jsstring) :
  blank s -> truthy_string (trim s) = false.
Proof.
  intros H; apply trim_nil_iff in H; rewrite H; reflexivity.
Qed.

Lemma truthy_trim_not_blank (s : jsstring) :
  ~ blank s -> truthy_string (trim s) = true.
Proof.
  intros H; destruct (trim s) eqn:E; [|reflexivity].
  exfalso; apply H, trim_nil_iff, E.
Qed.

End TrimFacts.

(* ================================================================== *)
(** ** The handlers of MoodAnalyzer                                    *)
(* ================================================================== *)

Module MoodAnalyzerFacts.
Import JS Api MoodAnalyzer Terms TrimFacts.
Open Scope Q_scope.

(** A text with something to analyze is sent to the backend as it stands,
    in one request. *)
Theorem handleAnalyze_sends (analyze : AnalyzeApi) (st : State) :
  ~ blank (text st) ->
  fst (handleAnalyze analyze st)
  = [{| MoodAnalysisRequest.text := text st;
        MoodAnalysisRequest.user_id := default_user |}].
Proof.
  intros H; unfold handleAnalyze.
  rewrite (truthy_trim_not_blank _ H); simpl.
  destruct (analyze _); reflexivity.
Qed.

Lemma handleAnalyze_sends_witness :
  fst (handleAnalyze Samples.backend (setText (str "I am fine") initial))
  = [{| MoodAnalysisRequest.text := str "I am fine";
        MoodAnalysisRequest.user_id := default_user |}].
Proof.
  apply (handleAnalyze_sends Samples.backend
           (setText (str "I am fine") initial)).
  intros H; inversion H; discriminate.
Defined.

(** A request the backend fails leaves no result on screen: the error is
    shown instead, and the spinner is cleared. *)
Theorem handleAnalyze_failure (analyze : AnalyzeApi) (st : State)
    (err : RequestError.t) :
  ~ blank (text st) ->
  analyze {| MoodAnalysisRequest.text := text st;
             MoodAnalysisRequest.user_id := default_user |}
  = Rejected err ->
  result (snd (handleAnalyze analyze st)) = None
  /\ error (snd (handleAnalyze analyze st))
     = Some
         (or_else (RequestError.detail err)
            (str "Failed to analyze mood: " ++ RequestError.message err
             ++ str ". Is the backend running?"))
  /\ loading (snd (handleAnalyze analyze st)) = false.
Proof.
  intros Hb H; unfold handleAnalyze.
  rewrite (truthy_trim_not_blank _ Hb); simpl.
  rewrite H; simpl; repeat split.
Qed.

Lemma handleAnalyze_failure_witness :
  result (snd (handleAnalyze Samples.offline (setText (str "I am fine") initial)))
  = None
  /\ error (snd (handleAnalyze Samples.offline
                  (setText (str "I am fine") initial)))
     = Some
         (str "Failed to analyze mood: Network Error. Is the backend running?").
Proof.
  assert (Hb : ~ blank (text (setText (str "I am fine") initial))).
  { intros H; inversion H; discriminate. }
  destruct (handleAnalyze_failure Samples.offline
              (setText (str "I am fine") initial) _ Hb eq_refl)
    as (Hr & He & _).
  split; [exact Hr | exact He].
Defined.

(** The same on the face-scan path: without the backend's answer the
    face-derived score is not shown either. *)
Theorem face_failure (analyze : AnalyzeApi) (emotions : object)
    (moodScore : number) (st : State) (err : RequestError.t) :
  analyze (faceRequest emotions) = Rejected err ->
  result (snd (handleFaceEmotionDetected analyze emotions moodScore st))
  = None
  /\ error (snd (handleFaceEmotionDetected analyze emotions moodScore st))
     = Some
         (or_else (RequestError.detail err)
            (str "Failed to analyze mood. Please try again."))
  /\ loading (snd (handleFaceEmotionDetected analyze emotions moodScore st))
     = false.
Proof.
  intros H; unfold handleFaceEmotionDetected.
  fold (faceRequest emotions); rewrite H; simpl; repeat split.
Qed.

Lemma face_failure_witness :
  result
    (snd (handleFaceEmotionDetected Samples.offline Samples.expressions 7.1
            initial))
  = None.
Proof.
  eapply proj1.
  eapply face_failure.
  reflexivity.
Defined.

(** C7. For every text that is empty or made of white space only, analyze
    is rejected: the input error is put on screen, no request goes to the
    backend and no result is produced (the state keeps what it had). *)
Theorem handleAnalyze_rejects_blank (analyze : AnalyzeApi) (st : State) :
  blank (text st) ->
  fst (handleAnalyze analyze st) = []
  /\ error (snd (handleAnalyze analyze st))
     = Some (str "Please enter some text to analyze")
  /\ result (snd (handleAnalyze analyze st)) = result st
  /\ loading (snd (handleAnalyze analyze st)) = loading st
  /\ text (snd (handleAnalyze analyze st)) = text st.
Proof.
  intros H; unfold handleAnalyze.
  rewrite (truthy_trim_blank _ H); simpl.
  repeat split.
Qed.

Lemma handleAnalyze_rejects_blank_witness :
  fst (handleAnalyze Samples.backend (setText (str "   ") initial)) = []
  /\ error (snd (handleAnalyze Samples.backend (setText (str "   ") initial)))
     = Some (str "Please enter some text to analyze").
Proof.
  assert (H : blank (text (setText (str "   ") initial)))
    by (repeat constructor).
  split.
  - exact (proj1 (handleAnalyze_rejects_blank Samples.backend _ H)).
  - exact (proj1 (proj2 (handleAnalyze_rejects_blank Samples.backend _ H))).
Defined.

(** C5. When the face scanner supplies a mood score, the result put on
    screen carries exactly that score, whatever text-derived score the
    backend returned: the override replaces, it does not blend. *)
Theorem face_score_overrides (analyze : AnalyzeApi) (emotions : object)
    (moodScore : number) (st : State) (response : MoodAnalysisResponse.t) :
  analyze (faceRequest emotions) = Resolved response ->
  exists shown,
    result (snd (handleFaceEmotionDetected analyze emotions moodScore st))
    = Some shown
    /\ MoodAnalysis.mood_score (MoodAnalysisResponse.mood_analysis shown)
       = moodScore.
Proof.
  intros H; unfold handleFaceEmotionDetected.
  fold (faceRequest emotions); rewrite H.
  eexists; split; reflexivity.
Qed.

Lemma face_score_overrides_witness :
  exists shown,
    result
      (snd (handleFaceEmotionDetected Samples.backend Samples.expressions
              7.1 initial))
    = Some shown
    /\ MoodAnalysis.mood_score (MoodAnalysisResponse.mood_analysis shown)
       = 7.1.
Proof.
  eapply face_score_overrides.
  reflexivity.
Defined.

(** C10. On the face-scan path the override changes exactly
    [mood_analysis.mood_score] and [mood_analysis.emotions] of the backend's
    answer to the synthesized emotion text; sentiment, text_length,
    crisis_check and recommendations (and success) are the backend's. *)
Theorem face_override_frame (analyze : AnalyzeApi) (emotions : object)
    (moodScore : number) (st : State) (response : MoodAnalysisResponse.t) :
  analyze (faceRequest emotions) = Resolved response ->
  fst (handleFaceEmotionDetected analyze emotions moodScore st)
  = [faceRequest emotions]
  /\ result (snd (handleFaceEmotionDetected analyze emotions moodScore st))
     = Some
         {| MoodAnalysisResponse.success :=
              MoodAnalysisResponse.success response;
            MoodAnalysisResponse.mood_analysis :=
              {| MoodAnalysis.sentiment :=
                   MoodAnalysis.sentiment
                     (MoodAnalysisResponse.mood_analysis response);
                 MoodAnalysis.emotions := emotions;
                 MoodAnalysis.mood_score := moodScore;
                 MoodAnalysis.text_length :=
                   MoodAnalysis.text_length
                     (MoodAnalysisResponse.mood_analysis response) |};
            MoodAnalysisResponse.crisis_check :=
              MoodAnalysisResponse.crisis_check response;
            MoodAnalysisResponse.recommendations :=
              MoodAnalysisResponse.recommendations response |}.
Proof.
  intros H; unfold handleFaceEmotionDetected.
  fold (faceRequest emotions); rewrite H.
  split; reflexivity.
Qed.

Lemma face_override_frame_witness :
  fst (handleFaceEmotionDetected Samples.backend Samples.expressions 7.1
         initial)
  = [faceRequest Samples.expressions].
Proof.
  eapply proj1.
  eapply face_override_frame.
  reflexivity.
Defined.

End MoodAnalyzerFacts.

(* ================================================================== *)
(** ** The crisis alert across a session                               *)
(* ================================================================== *)

Module SessionFacts.
Import JS Api MoodAnalyzer Terms TrimFacts.

Lemma sample_backend_conforming :
  Backend.conforming Samples.catalog Samples.resource_catalog 2
    Samples.backend.
Proof.
  intros request response H; exists None.
  unfold Samples.backend in H; inversion H; reflexivity.
Qed.

Section Invariant.
Variable catalog : list Backend.Indicator.
Variable resource_catalog : list Resource.t.
Variable shown_resources : nat.

Local Abbreviation conforming :=
  (Backend.conforming catalog resource_catalog shown_resources).
Local Abbreviation checker :=
  (Backend.crisis_check catalog resource_catalog shown_resources).

Lemma checker_attention (text : jsstring) (annotation : option jsstring) :
  attention_iff_high (checker text annotation).
Proof.
  unfold attention_iff_high, Backend.crisis_check; simpl.
  destruct (Backend.risk_of _); simpl; split; congruence.
Qed.

Lemma conforming_attention (analyze : AnalyzeApi)
    (request : MoodAnalysisRequest.t) (response : MoodAnalysisResponse.t) :
  conforming analyze ->
  analyze request = Resolved response ->
  attention_iff_high (MoodAnalysisResponse.crisis_check response).
Proof.
  intros Hc H; destruct (Hc _ _ H) as [annotation ->].
  apply checker_attention.
Qed.

(** Every handler either keeps the result on screen, clears it, or shows a
    backend answer whose crisis assessment it has not touched. *)
Lemma step_result (analyze : AnalyzeApi) (ev : Event) (st : State)
    (shown : MoodAnalysisResponse.t) :
  result (snd (step analyze ev st)) = Some shown ->
  result st = Some shown
  \/ exists request response,
       analyze request = Resolved response
       /\ MoodAnalysisResponse.crisis_check shown
          = MoodAnalysisResponse.crisis_check response.
Proof.
  destruct ev as [value | | emotions moodScore | v | v]; simpl.
  - auto.
  - unfold handleAnalyze.
    destruct (negb (truthy_string (trim (text st)))); simpl; [auto|].
    destruct (analyze _) as [response | err] eqn:E; simpl.
    + intros H; inversion H; subst; right; eauto.
    + discriminate.
  - unfold handleFaceEmotionDetected.
    destruct (analyze _) as [response | err] eqn:E; simpl.
    + intros H; inversion H; subst; right; eauto.
    + discriminate.
  - auto.
  - auto.
Qed.

(** C1. For every analysis result a session puts on screen, the crisis
    check's requires_immediate_attention is true if and only if its
    risk_level is HIGH. *)
Theorem attention_iff_high_risk (st : State) (shown : MoodAnalysisResponse.t) :
  reachable catalog resource_catalog shown_resources st ->
  result st = Some shown ->
  CrisisCheck.requires_immediate_attention
    (MoodAnalysisResponse.crisis_check shown) = true
  <-> CrisisCheck.risk_level (MoodAnalysisResponse.crisis_check shown) = HIGH.
Proof.
  intros Hreach; revert shown.
  induction Hreach as [| analyze ev st Hc Hreach IH]; intros shown H.
  - discriminate H.
  - apply step_result in H.
    destruct H as [H | [request [response [Hr Heq]]]].
    + apply IH, H.
    + rewrite Heq.
      apply (conforming_attention analyze request response Hc Hr).
Qed.
End Invariant.

Lemma attention_iff_high_risk_witness :
  exists shown,
    result
      (snd (step Samples.backend ClickAnalyze
              (snd (step Samples.backend
                      (Typed (str "I feel hopeless and don't see a way out"))
                      initial))))
    = Some shown
    /\ CrisisCheck.risk_level (MoodAnalysisResponse.crisis_check shown) = HIGH
    /\ (CrisisCheck.requires_immediate_attention
          (MoodAnalysisResponse.crisis_check shown) = true
        <-> CrisisCheck.risk_level (MoodAnalysisResponse.crisis_check shown)
            = HIGH).
Proof.
  eexists; split; [reflexivity|]; split; [reflexivity|].
  apply (attention_iff_high_risk Samples.catalog Samples.resource_catalog 2
           (snd (step Samples.backend ClickAnalyze
                   (snd (step Samples.backend
                           (Typed
                              (str "I feel hopeless and don't see a way out"))
                           initial))))).
  - apply reach_step; [exact sample_backend_conforming|].
    apply reach_step; [exact sample_backend_conforming|].
    apply reach_initial.
  - reflexivity.
Defined.

End SessionFacts.

(* ================================================================== *)
(** ** Array.prototype.sort with a descending comparator               *)
(* ================================================================== *)

Module SortFacts.
Import JS.
Open Scope Q_scope.

Section Descending.
Variable A : Type.
Variable key : A -> number.

(** The comparator [(a, b) => key(b) - key(a)] and the order it induces. *)
Local Abbreviation compareFn := (fun x y : A => key y - key x).
Local Abbreviation descending := (fun a b : A => key b <= key a).

Lemma sort_insert_perm (x : A) (l : list A) :
  Permutation (sort_insert compareFn x l) (x :: l).
Proof.
  induction l as [|y l IH]; simpl.
  - apply Permutation_refl.
  - destruct (Qle_bool (key y - key x) 0).
    + apply Permutation_refl.
    + apply Permutation_trans with (y :: x :: l).
      * apply perm_skip, IH.
      * apply perm_swap.
Qed.

Lemma sort_perm (l : list A) : Permutation (sort compareFn l) l.
Proof.
  induction l as [|x l IH]; simpl.
  - apply perm_nil.
  - apply Permutation_trans with (x :: sort compareFn l).
    + apply sort_insert_perm.
    + apply perm_skip, IH.
Qed.

Lemma sort_insert_sorted (x : A) (l : list A) :
  StronglySorted descending l ->
  StronglySorted descending (sort_insert compareFn x l).
Proof.
  induction 1 as [|y l Hs IH Hy]; simpl.
  - constructor; constructor.
  - destruct (Qle_bool (key y - key x) 0) eqn:E.
    + apply Qle_bool_iff in E.
      constructor; [constructor; assumption|].
      constructor.
      * lra.
      * revert Hy; apply Forall_impl; intros z Hz; cbv beta in *; lra.
    + assert (Hlt : key x < key y).
      { destruct (Qlt_le_dec (key x) (key y)) as [Hlt | Hge]; [exact Hlt|].
        assert (Hb : Qle_bool (key y - key x) 0 = true)
          by (apply Qle_bool_iff; lra).
        congruence. }
      constructor; [exact IH|].
      apply (Permutation_Forall (Permutation_sym (sort_insert_perm x l))).
      constructor; [lra | exact Hy].
Qed.

Lemma sort_sorted (l : list A) : StronglySorted descending (sort compareFn l).
Proof.
  induction l as [|x l IH]; simpl.
  - constructor.
  - apply sort_insert_sorted, IH.
Qed.
End Descending.

End SortFacts.

(* ================================================================== *)
(** ** Objects as dictionaries                                         *)
(* ================================================================== *)

Module ObjectFacts.
Import JS JSFacts.

Section Values.
Variable V : Type.











End Values.

End ObjectFacts.

(* ================================================================== *)
(** ** Array.prototype.sort with a comparator into the doubles         *)
(* ================================================================== *)

Module DoubleSortFacts.
Import JS Double.

Section Sorting.
Variable A : Type.
Variable compareFn : A -> A -> double.



(** On the elements of [P] the comparator follows an order [le] that is
    total and transitive there. *)
Variable P : A -> Prop.
Variable le : A -> A -> bool.
Hypothesis keeps_le :
  forall x y, P x -> P y -> keeps (compareFn x y) = le x y.
Hypothesis le_total :
  forall x y, P x -> P y -> le x y = false -> le y x = true.
Hypothesis le_trans :
  forall x y z, le x y = true -> le y z = true -> le x z = true.


End Sorting.

End DoubleSortFacts.

(* ================================================================== *)
(** ** The dashboard: emotionData and topEmotions                      *)
(* ================================================================== *)

Module DashboardFacts.
Import JS Api JSFacts ObjectFacts Double DoubleFacts MoodDashboard Terms.
Open Scope Q_scope.






















(** *** The empty window *)

Lemma loadDashboardData_loading
    (historyData : Outcome HistoryData)
    (patternsData : Outcome (option Patterns))
    (recsData : Outcome (option (list Recommendation.t))) (st : State) :
  loading (loadDashboardData historyData patternsData recsData st) = false.
Proof.
  destruct historyData, patternsData, recsData; reflexivity.
Qed.

Lemma loadDashboardData_seeding
    (historyData : Outcome HistoryData)
    (patternsData : Outcome (option Patterns))
    (recsData : Outcome (option (list Recommendation.t))) (st : State) :
  seeding (loadDashboardData historyData patternsData recsData st)
  = seeding st.
Proof.
  destruct historyData, patternsData, recsData; reflexivity.
Qed.

Lemma loadDashboardData_showToast
    (historyData : Outcome HistoryData)
    (patternsData : Outcome (option Patterns))
    (recsData : Outcome (option (list Recommendation.t))) (st : State) :
  showToast (loadDashboardData historyData patternsData recsData st)
  = showToast st.
Proof.
  destruct historyData, patternsData, recsData; reflexivity.
Qed.

Lemma averageMoodText_missing (toFixed : number -> nat -> jsstring)
    (p : option Patterns) :
  average_missing p -> averageMoodText toFixed p = NA.
Proof.
  destruct p as [p|]; simpl; [|reflexivity].
  intros H; unfold averageMoodText; rewrite H; reflexivity.
Qed.

(** An average that is present, zero included, is shown as its
    [toFixed(1)] text (which is never the empty string). *)
Lemma averageMoodText_present (toFixed : number -> nat -> jsstring)
    (p : Patterns) (a : number) :
  average_mood p = Some a ->
  toFixed a 1%nat <> [] ->
  averageMoodText toFixed (Some p) = toFixed a 1%nat.
Proof.
  intros H Hne; unfold averageMoodText; rewrite H; simpl.
  destruct (toFixed a 1%nat); [congruence | reflexivity].
Qed.

(** What the render function returns once the spinner is gone. *)
Lemma render_loaded (toFixed : number -> nat -> jsstring) (st : State) :
  loading st = false ->
  (history st = [] -> render toFixed st = NoMoodData (seeding st))
  /\ (history st <> [] ->
      exists summary,
        render toFixed st = Dashboard summary
        /\ toast summary = showToast st
        /\ averageMood summary = averageMoodText toFixed (patterns st)
        /\ totalEntries summary = List.length (history st)).
Proof.
  intros Hl; unfold render; rewrite Hl; split.
  - intros ->; reflexivity.
  - intros Hne; destruct (history st) as [|entry rest] eqn:E;
      [congruence|].
    cbn [List.length Nat.eqb].
    eexists; split; [reflexivity|]; cbn; auto.
Qed.

(** C8, as the code has it.  Once the data has been loaded, an empty history
    window makes the dashboard render its no-data state, which shows no
    average at all: neither an error, nor a zero, nor 'N/A'.  The sentinel
    'N/A' is what the 'Average Mood' card of a window that is not empty
    reads when the average mood is missing. *)
Theorem empty_history_no_data (toFixed : number -> nat -> jsstring)
    (historyData : Outcome HistoryData)
    (patternsData : Outcome (option Patterns))
    (recsData : Outcome (option (list Recommendation.t))) (st : State) :
  (history (loadDashboardData historyData patternsData recsData st) = [] ->
   render toFixed (loadDashboardData historyData patternsData recsData st)
   = NoMoodData (seeding st)
   /\ displayedAverage
        (render toFixed
           (loadDashboardData historyData patternsData recsData st))
      = None)
  /\ (history (loadDashboardData historyData patternsData recsData st) <> [] ->
      average_missing
        (patterns (loadDashboardData historyData patternsData recsData st)) ->
      displayedAverage
        (render toFixed
           (loadDashboardData historyData patternsData recsData st))
      = Some (str "N/A")).
Proof.
  pose proof (render_loaded toFixed
                (loadDashboardData historyData patternsData recsData st)
                (loadDashboardData_loading _ _ _ _)) as [Hempty Hfull].
  split.
  - intros H; rewrite (Hempty H), loadDashboardData_seeding.
    split; reflexivity.
  - intros H Hm; destruct (Hfull H) as (summary & -> & _ & Ha & _).
    cbn [displayedAverage]; rewrite Ha.
    f_equal; apply averageMoodText_missing, Hm.
Qed.

Lemma empty_history_no_data_witness :
  render (fun _ _ => str "0.0")
    (loadDashboardData
       (Resolved {| success := true; entries := []; total_entries := 0 |})
       (Resolved None) (Resolved None) initial)
  = NoMoodData false
  /\ displayedAverage
       (render (fun _ _ => str "0.0")
          (loadDashboardData
             (Resolved
                {| success := true;
                   entries := [Samples.entry (Some Samples.intensities)];
                   total_entries := 1 |})
             (Resolved None) (Resolved None) initial))
     = Some (str "N/A").
Proof.
  split.
  - apply (empty_history_no_data (fun _ _ => str "0.0")
             (Resolved {| success := true; entries := []; total_entries := 0 |})
             (Resolved None) (Resolved None) initial).
    reflexivity.
  - apply (empty_history_no_data (fun _ _ => str "0.0")
             (Resolved
                {| success := true;
                   entries := [Samples.entry (Some Samples.intensities)];
                   total_entries := 1 |})
             (Resolved None) (Resolved None) initial).
    + discriminate.
    + exact I.
Defined.

(** For an empty window whose average mood is missing no 'N/A' is
    displayed: the no-data view has no average card. *)
Lemma empty_window_shows_no_sentinel :
  history
    (loadDashboardData
       (Resolved {| success := true; entries := []; total_entries := 0 |})
       (Resolved None) (Resolved None) initial)
  = []
  /\ average_missing
       (patterns
          (loadDashboardData
             (Resolved {| success := true; entries := []; total_entries := 0 |})
             (Resolved None) (Resolved None) initial))
  /\ displayedAverage
       (render (fun _ _ => str "0.0")
          (loadDashboardData
             (Resolved {| success := true; entries := []; total_entries := 0 |})
             (Resolved None) (Resolved None) initial))
     <> Some (str "N/A").
Proof. split; [reflexivity | split; [exact I | discriminate]]. Qed.

End DashboardFacts.

(* ================================================================== *)
(** ** The model at work on concrete inputs                            *)
(* ================================================================== *)

Module Examples.
Import JS Api.
Open Scope Q_scope.

Example clamp_saturates :
  FaceScanner64.calculateMoodScore [(str "happy", 100%float)] = 10%float
  /\ FaceScanner64.calculateMoodScore [(str "sad", 100%float)] = 0%float.
Proof. split; reflexivity. Qed.

Example neutral_is_ignored :
  FaceScanner64.calculateMoodScore
    [(str "neutral", 0.97%float); (str "happy", 0.01%float)]
  = (5 + 0.01 * 3)%float.
Proof. reflexivity. Qed.

(** The score depends on the order in which the entries are visited. *)
Example order_of_entries_matters :
  FaceScanner64.calculateMoodScore
    [(str "happy", 0.7%float); (str "sad", 0.1%float);
     (str "surprised", 0.2%float)]
  <> FaceScanner64.calculateMoodScore
       [(str "happy", 0.7%float); (str "surprised", 0.2%float);
        (str "sad", 0.1%float)].
Proof.
  intros H; apply (f_equal (fun x => Leibniz.eqb x 7.4%float)) in H.
  vm_compute in H; discriminate H.
Qed.

(** Small contributions are lost next to a large running score. *)
Example absorbed_contributions :
  FaceScanner64.calculateMoodScore
    [(str "happy", 1e16%float); (str "sad", 1e16%float)]
  = 4%float.
Proof. reflexivity. Qed.

Example trim_keeps_inner_spaces : trim (str "  a b  ") = str "a b".
Proof. reflexivity. Qed.

Example emotionText_of_sample :
  MoodAnalyzer.emotionText Samples.expressions
  = str "I'm feeling happy based on my facial expression.".
Proof. reflexivity. Qed.

Example emotionText_three_strongest :
  MoodAnalyzer.emotionText
    [(str "neutral", 0.3); (str "happy", 0.3); (str "sad", 0.9);
     (str "angry", 0.2); (str "fearful", 0.05)]
  = str "I'm feeling sad, neutral, happy based on my facial expression.".
Proof. reflexivity. Qed.

(** Array-index keys are enumerated first, whenever they were added. *)
Example emotionData_enumeration_order :
  map fst
    (MoodDashboard.emotionData
       [Samples.entry (Some [(str "joy", 0.5%float); (str "2", 0.1%float)]);
        Samples.entry None;
        Samples.entry (Some [(str "fear", 0.6%float); (str "1", 0.1%float)])])
  = [str "1"; str "2"; str "joy"; str "fear"].
Proof. reflexivity. Qed.

Example topEmotions_of_two_entries :
  MoodDashboard.topEmotions
    [Samples.entry (Some [(str "joy", 0.5%float); (str "fear", 0.2%float)]);
     Samples.entry (Some [(str "fear", 0.6%float); (str "joy", 0.1%float)])]
  = [ {| MoodDashboard.emotion := str "fear";
         MoodDashboard.average := ((0.2 + 0.6) / 2)%float |};
      {| MoodDashboard.emotion := str "joy";
         MoodDashboard.average := ((0.5 + 0.1) / 2)%float |} ].
Proof. reflexivity. Qed.

(** The sums are those of the doubles: 0.1 + 0.2 is above 0.3. *)
Example rounded_sums_rank :
  map MoodDashboard.emotion
    (MoodDashboard.topEmotions
       [Samples.entry (Some [(str "a", 0.1%float); (str "b", 0.3%float)]);
        Samples.entry (Some [(str "a", 0.2%float)])])
  = [str "a"; str "b"].
Proof. reflexivity. Qed.

(** Names of members of [Object.prototype]: ['__proto__'] is dropped, and
    the total of ['constructor'] is a text, its average NaN. *)
Example inherited_names :
  MoodDashboard.emotionData
    [Samples.entry
       (Some [(str "__proto__", 0.9%float); (str "joy", 0.5%float);
              (str "constructor", 0.2%float)])]
  = [(str "joy", MoodDashboard.Num 0.5%float);
     (str "constructor", MoodDashboard.Text)]
  /\ map (fun t => is_nan (MoodDashboard.average t))
       (MoodDashboard.topEmotions
          [Samples.entry
             (Some [(str "__proto__", 0.9%float); (str "joy", 0.5%float);
                    (str "constructor", 0.2%float)])])
     = [false; true].
Proof. split; reflexivity. Qed.

Example hopeless_is_high :
  Backend.risk_of
    (Backend.scan Samples.catalog
       (str "I feel hopeless and don't see a way out"))
  = HIGH
  /\ Backend.risk_of (Backend.scan Samples.catalog (str "a bit stressed"))
     = MEDIUM
  /\ Backend.risk_of (Backend.scan Samples.catalog (str "a sunny day")) = LOW.
Proof. repeat split. Qed.

End Examples.

(* ================================================================== *)
(** ** Array.prototype.sort with any comparator, and prefixes          *)
(* ================================================================== *)

Module OrderFacts.
Import JS.
Open Scope Q_scope.

Section Lists.
Variable A : Type.
Variable R : A -> A -> Prop.

Lemma sorted_app (l1 l2 : list A) :
  StronglySorted R (l1 ++ l2) ->
  StronglySorted R l1 /\ StronglySorted R l2
  /\ (forall x y, In x l1 -> In y l2 -> R x y).
Proof.
  induction l1 as [|a l1 IH]; simpl; intros H.
  - repeat split; [constructor | exact H | intros x y []].
  - apply StronglySorted_inv in H; destruct H as [Hs Ha].
    destruct (IH Hs) as (H1 & H2 & H12).
    apply Forall_app in Ha; destruct Ha as [Ha1 Ha2].
    repeat split.
    + constructor; assumption.
    + exact H2.
    + intros x y [<- | Hx] Hy.
      * rewrite Forall_forall in Ha2; apply Ha2, Hy.
      * apply H12; assumption.
Qed.

Lemma sorted_before (l : list A) (a b : A) :
  StronglySorted R l -> MoreTerms.before l a b -> R a b.
Proof.
  intros Hs (l1 & l2 & l3 & ->).
  apply sorted_app in Hs; destruct Hs as (_ & Hs & _).
  apply StronglySorted_inv in Hs; destruct Hs as [_ Ha].
  rewrite Forall_forall in Ha; apply Ha.
  apply in_or_app; right; left; reflexivity.
Qed.

(** Two different members of a list stand one before the other. *)
Lemma before_or_after (l : list A) (a b : A) :
  In a l -> In b l -> a <> b ->
  MoreTerms.before l a b \/ MoreTerms.before l b a.
Proof.
  intros Ha Hb Hne.
  apply in_split in Ha; destruct Ha as (l1 & l2 & ->).
  apply in_app_or in Hb; destruct Hb as [Hb | [Hb | Hb]].
  - right; apply in_split in Hb; destruct Hb as (m1 & m2 & ->).
    exists m1, m2, l2; rewrite <- app_assoc; reflexivity.
  - congruence.
  - left; apply in_split in Hb; destruct Hb as (m1 & m2 & ->).
    exists l1, m1, m2; reflexivity.
Qed.

Lemma prefix_In (k : nat) (l : list A) (x : A) :
  In x (firstn k l) -> In x l.
Proof.
  intros H; rewrite <- (firstn_skipn k l).
  apply in_or_app; left; exact H.
Qed.

Lemma prefix_shape (k : nat) (l : list A) :
  skipn k l = [] \/ List.length (firstn k l) = k.
Proof.
  destruct (Nat.le_gt_cases (List.length l) k) as [H | H].
  - left; apply skipn_all2, H.
  - right; apply firstn_length_le, Nat.lt_le_incl, H.
Qed.
End Lists.

Section Comparator.
Variable A : Type.
Variable compareFn : A -> A -> number.

Local Abbreviation ordered := (fun x y : A => compareFn x y <= 0).

Lemma insert_permutation (x : A) (l : list A) :
  Permutation (sort_insert compareFn x l) (x :: l).
Proof.
  induction l as [|y l IH]; simpl.
  - apply Permutation_refl.
  - destruct (Qle_bool (compareFn x y) 0).
    + apply Permutation_refl.
    + apply Permutation_trans with (y :: x :: l);
        [apply perm_skip, IH | apply perm_swap].
Qed.

Lemma sort_permutation (l : list A) : Permutation (sort compareFn l) l.
Proof.
  induction l as [|x l IH]; simpl.
  - apply perm_nil.
  - apply Permutation_trans with (x :: sort compareFn l);
      [apply insert_permutation | apply perm_skip, IH].
Qed.

(** An element the comparator puts before the head of the list stays in
    front: the sort never reorders what is already in order. *)
Lemma insert_front (x : A) (l : list A) :
  Forall (ordered x) l -> sort_insert compareFn x l = x :: l.
Proof.
  destruct l as [|y l]; simpl; [reflexivity|].
  intros H; apply Forall_inv in H.
  apply Qle_bool_iff in H; rewrite H; reflexivity.
Qed.

Lemma sort_of_sorted (l : list A) :
  StronglySorted ordered l -> sort compareFn l = l.
Proof.
  induction 1 as [|x l Hs IH Hx]; simpl.
  - reflexivity.
  - rewrite IH; apply insert_front, Hx.
Qed.

(** The sort is stable: elements the comparator never puts behind one
    another keep their order. *)
Lemma insert_stable (P : A -> bool) (x : A) (l : list A) :
  (forall a b, P a = true -> P b = true -> ordered a b) ->
  filter P (sort_insert compareFn x l) = filter P (x :: l).
Proof.
  intros Hclass; induction l as [|y l IH]; [reflexivity|].
  cbn [sort_insert].
  destruct (Qle_bool (compareFn x y) 0) eqn:E; [reflexivity|].
  cbn [filter] in *; rewrite IH.
  destruct (P x) eqn:Px; destruct (P y) eqn:Py; try reflexivity.
  pose proof (Hclass x y Px Py) as H.
  apply Qle_bool_iff in H; congruence.
Qed.

Lemma sort_stable (P : A -> bool) (l : list A) :
  (forall a b, P a = true -> P b = true -> ordered a b) ->
  filter P (sort compareFn l) = filter P l.
Proof.
  intros Hclass; induction l as [|x l IH]; [reflexivity|].
  cbn [sort fold_right]; fold (sort compareFn l).
  rewrite (insert_stable P x (sort compareFn l) Hclass).
  cbn [filter]; rewrite IH; reflexivity.
Qed.

(** A comparator that is consistent: of two elements one goes first, and
    the order it induces is transitive. *)
Hypothesis total : forall x y, ~ ordered x y -> ordered y x.
Hypothesis transitive : forall x y z, ordered x y -> ordered y z -> ordered x z.

Lemma insert_keeps_sorted (x : A) (l : list A) :
  StronglySorted ordered l ->
  StronglySorted ordered (sort_insert compareFn x l).
Proof.
  induction 1 as [|y l Hs IH Hy]; simpl.
  - constructor; constructor.
  - destruct (Qle_bool (compareFn x y) 0) eqn:E.
    + apply Qle_bool_iff in E.
      constructor; [constructor; assumption|].
      constructor; [exact E|].
      revert Hy; apply Forall_impl; intros z Hz.
      apply (transitive x y z E Hz).
    + assert (Hyx : ordered y x).
      { apply total; intros H; apply Qle_bool_iff in H; congruence. }
      constructor; [exact IH|].
      apply (Permutation_Forall (Permutation_sym (insert_permutation x l))).
      constructor; assumption.
Qed.

Lemma sort_is_sorted (l : list A) : StronglySorted ordered (sort compareFn l).
Proof.
  induction l as [|x l IH]; simpl.
  - constructor.
  - apply insert_keeps_sorted, IH.
Qed.

Lemma sort_twice (l : list A) :
  sort compareFn (sort compareFn l) = sort compareFn l.
Proof. apply sort_of_sorted, sort_is_sorted. Qed.
End Comparator.

(** The first [k] entries of a list in descending order are its [k]
    strongest. *)
Lemma strongest_of_sorted (k : nat) (all l : list (jsstring * number)) :
  Permutation l all ->
  StronglySorted (fun a b => snd b <= snd a) l ->
  MoreTerms.strongest k all (firstn k l).
Proof.
  intros Hp Hs.
  rewrite <- (firstn_skipn k l) in Hs.
  apply sorted_app in Hs; destruct Hs as (H1 & _ & H12).
  split; [exact H1|].
  exists (skipn k l).
  split; [rewrite firstn_skipn; exact Hp | split].
  - apply prefix_shape.
  - intros s r Hs' Hr; apply (H12 s r Hs' Hr).
Qed.

Lemma strongest_prefix (k : nat) (all : list (jsstring * number)) :
  MoreTerms.strongest k all
    (firstn k (sort (fun x y => snd y - snd x) all)).
Proof.
  apply strongest_of_sorted.
  - apply (SortFacts.sort_perm _ snd all).
  - apply (SortFacts.sort_sorted _ snd all).
Qed.

End OrderFacts.

(* ================================================================== *)
(** ** What MoodAnalyzer renders and sends                             *)
(* ================================================================== *)

Module ViewFacts.
Import JS Api JSFacts MoodAnalyzer MoodAnalyzerView Terms MoreTerms.
Open Scope Q_scope.

Lemma sorted_weaken (A : Type) (R R' : A -> A -> Prop) (l : list A) :
  (forall x y, R x y -> R' x y) ->
  StronglySorted R l -> StronglySorted R' l.
Proof.
  intros Himp; induction 1 as [|a l Hs IH Ha]; constructor.
  - exact IH.
  - revert Ha; apply Forall_impl; intros y; apply Himp.
Qed.

(** The "Detected Emotions" card shows the five strongest emotions of the
    result, strongest first (all of them when there are at most five). *)
Theorem emotionChips_strongest (r : MoodAnalysisResponse.t) :
  strongest 5
    (MoodAnalysis.emotions (MoodAnalysisResponse.mood_analysis r))
    (emotionChips r).
Proof.
  unfold emotionChips, slice0.
  apply OrderFacts.strongest_prefix.
Qed.

(** The emotion text the face-scan path sends names the three strongest
    expressions among those above 0.1, strongest first: the first three
    chips the scanner showed. *)
Theorem emotionText_names (emotions : object) :
  exists shown : list (jsstring * number),
    emotionText emotions
    = str "I'm feeling " ++ join (str ", ") (map fst shown)
      ++ str " based on my facial expression."
    /\ strongest 3
         (filter (fun entry => negb (Qle_bool (snd entry) 0.1)) emotions)
         shown
    /\ (forall s, In s shown -> In s emotions /\ 0.1 < snd s)
    /\ shown = firstn 3 (FaceScannerUI.detectedChips emotions).
Proof.
  exists (firstn 3 (FaceScannerUI.detectedChips emotions)).
  pose proof
    (OrderFacts.strongest_prefix 3
       (filter (fun entry => negb (Qle_bool (snd entry) 0.1)) emotions))
    as Hstrong.
  split; [reflexivity | split; [exact Hstrong | split; [|reflexivity]]].
  intros s Hs.
  destruct Hstrong as (_ & rest & Hperm & _).
  assert (Hin : In s (filter (fun entry => negb (Qle_bool (snd entry) 0.1))
                        emotions)).
  { apply (Permutation_in _ Hperm), in_or_app; left; exact Hs. }
  apply filter_In in Hin; destruct Hin as [Hin Hv]; split; [exact Hin|].
  destruct (Qlt_le_dec 0.1 (snd s)) as [Hlt | Hle]; [exact Hlt|].
  apply Qle_bool_iff in Hle; exfalso; revert Hv.
  change (negb (Qle_bool (snd s) 0.1) = true -> False).
  rewrite Hle; discriminate.
Qed.

Lemma emotionText_not_blank (emotions : object) :
  ~ blank (emotionText emotions).
Proof.
  intros H; inversion H as [|c s Hc _]; discriminate Hc.
Qed.

(** Whatever the user does, every request the component sends carries the
    user id 'default_user' and a text that is not blank. *)
Theorem requests_well_formed (analyze : AnalyzeApi) (ev : Event) (st : State)
    (request : MoodAnalysisRequest.t) :
  In request (fst (step analyze ev st)) ->
  MoodAnalysisRequest.user_id request = Some (str "default_user")
  /\ ~ blank (MoodAnalysisRequest.text request).
Proof.
  destruct ev as [value | | emotions moodScore | v | v]; simpl;
    try contradiction.
  - unfold handleAnalyze.
    destruct (truthy_string (trim (text st))) eqn:E; simpl; [|contradiction].
    destruct (analyze _); simpl; (intros [<- | []]; simpl; split;
      [reflexivity|]);
      intros Hb; apply TrimFacts.truthy_trim_blank in Hb; congruence.
  - unfold handleFaceEmotionDetected.
    destruct (analyze _); simpl; (intros [<- | []]; simpl; split;
      [reflexivity | apply emotionText_not_blank]).
Qed.

Lemma requests_well_formed_witness :
  MoodAnalysisRequest.user_id
    {| MoodAnalysisRequest.text := str "I am fine";
       MoodAnalysisRequest.user_id := default_user |}
  = Some (str "default_user")
  /\ ~ blank
        (MoodAnalysisRequest.text
           {| MoodAnalysisRequest.text := str "I am fine";
              MoodAnalysisRequest.user_id := default_user |}).
Proof.
  apply (requests_well_formed Samples.backend ClickAnalyze
           (setText (str "I am fine") initial)).
  left; reflexivity.
Defined.

(** While the "Analyze My Mood" button is enabled, clicking it sends the
    text: the input error cannot come from the button. *)
Theorem enabled_button_sends (analyze : AnalyzeApi) (st : State) :
  analyzeDisabled st = false ->
  fst (handleAnalyze analyze st)
  = [{| MoodAnalysisRequest.text := text st;
        MoodAnalysisRequest.user_id := default_user |}].
Proof.
  unfold analyzeDisabled; intros H.
  apply orb_false_iff in H; destruct H as [_ H].
  unfold handleAnalyze; rewrite H; simpl.
  destruct (analyze _); reflexivity.
Qed.

Lemma enabled_button_sends_witness :
  fst (handleAnalyze Samples.backend (setText (str "I am fine") initial))
  = [{| MoodAnalysisRequest.text := str "I am fine";
        MoodAnalysisRequest.user_id := default_user |}].
Proof.
  apply (enabled_button_sends Samples.backend
           (setText (str "I am fine") initial)).
  reflexivity.
Defined.

(** A higher score never gets a lower label. *)
Theorem getMoodLabel_monotone (a b : number) :
  a <= b ->
  (label_level (getMoodLabel a) <= label_level (getMoodLabel b))%nat.
Proof.
  intros Hab; unfold getMoodLabel.
  destruct (Qle_bool 8 a) eqn:A8; destruct (Qle_bool 8 b) eqn:B8;
  destruct (Qle_bool 6 a) eqn:A6; destruct (Qle_bool 6 b) eqn:B6;
  destruct (Qle_bool 4 a) eqn:A4; destruct (Qle_bool 4 b) eqn:B4;
  destruct (Qle_bool 2 a) eqn:A2; destruct (Qle_bool 2 b) eqn:B2;
    first [ apply Nat.leb_le; vm_compute; reflexivity | idtac ];
    exfalso;
    repeat match goal with
      | H : Qle_bool _ _ = true |- _ => apply Qle_bool_iff in H
      | H : Qle_bool ?x ?y = false |- _ =>
          assert (y < x)
            by (destruct (Qlt_le_dec y x) as [Hlt | Hle]; [exact Hlt|];
                apply Qle_bool_iff in Hle; congruence);
          clear H
      end;
    lra.
Qed.

Lemma getMoodLabel_monotone_witness :
  (label_level (getMoodLabel 3.9%Q) <= label_level (getMoodLabel 7.1%Q))%nat.
Proof.
  apply getMoodLabel_monotone.
  lra.
Defined.

End ViewFacts.

(* ================================================================== *)
(** ** The order of the recommendations                                *)
(* ================================================================== *)

Module RecommendationFacts.
Import JS Api JSFacts MoodAnalyzerView MoreTerms.
Open Scope Q_scope.

(** The comparator of the specification: the difference of the ranks. *)
Local Abbreviation byRank :=
  (fun a b : Recommendation.t =>
     rank (Recommendation.priority a) - rank (Recommendation.priority b)).

(** The rank the code reads from its object literal is the rank of the
    priority, unless the priority names an inherited member. *)
Lemma priorityRank_plain (p : jsstring) :
  includes prototypeMembers p = false -> priorityRank p = Some (rank p).
Proof.
  intros H; unfold priorityRank, lookup, rank, priorityOrder.
  cbn [obj_get].
  destruct (jsstring_eqb p (str "CRITICAL")) eqn:C.
  - apply jsstring_eqb_eq in C; subst; reflexivity.
  - destruct (jsstring_eqb p (str "HIGH")); [reflexivity|].
    destruct (jsstring_eqb p (str "MEDIUM")); [reflexivity|].
    destruct (jsstring_eqb p (str "LOW")); [reflexivity|].
    rewrite H; reflexivity.
Qed.

Lemma comparePriority_plain (a b : Recommendation.t) :
  includes prototypeMembers (Recommendation.priority a) = false ->
  includes prototypeMembers (Recommendation.priority b) = false ->
  sortCompare (comparePriority a b) = byRank a b.
Proof.
  intros Ha Hb; unfold comparePriority.
  rewrite (priorityRank_plain _ Ha), (priorityRank_plain _ Hb); reflexivity.
Qed.

(** Two comparators that agree on the members of a list sort it alike. *)
Lemma sort_insert_agree (A : Type) (f g : A -> A -> number) (x : A)
    (l : list A) :
  (forall y, In y l -> f x y = g x y) ->
  sort_insert f x l = sort_insert g x l.
Proof.
  induction l as [|y l IH]; intros H; cbn [sort_insert]; [reflexivity|].
  rewrite (H y) by (left; reflexivity).
  destruct (Qle_bool (g x y) 0); [reflexivity|].
  f_equal; apply IH; intros z Hz; apply H; right; exact Hz.
Qed.

Lemma sort_agree (A : Type) (f g : A -> A -> number) (l : list A) :
  (forall x y, In x l -> In y l -> f x y = g x y) ->
  sort f l = sort g l.
Proof.
  induction l as [|x l IH]; intros H; cbn [sort fold_right]; [reflexivity|].
  fold (sort f l) (sort g l).
  rewrite IH by (intros a b Ha Hb; apply H; right; assumption).
  apply sort_insert_agree; intros y Hy.
  apply H; [left; reflexivity | right].
  apply (Permutation_in _ (OrderFacts.sort_permutation _ g l)), Hy.
Qed.

Lemma sortedRecommendations_plain (recs : list Recommendation.t) :
  plain_priorities recs -> sortedRecommendations recs = sort byRank recs.
Proof.
  intros H; unfold sortedRecommendations.
  unfold plain_priorities in H; rewrite Forall_forall in H.
  apply sort_agree; intros a b Ha Hb.
  apply comparePriority_plain; apply H; assumption.
Qed.

Lemma sortedRecommendations_permutation (recs : list Recommendation.t) :
  Permutation (sortedRecommendations recs) recs.
Proof. apply OrderFacts.sort_permutation. Qed.

Lemma byRank_total (a b : Recommendation.t) :
  ~ byRank a b <= 0 -> byRank b a <= 0.
Proof. cbv beta; lra. Qed.

Lemma byRank_transitive (a b c : Recommendation.t) :
  byRank a b <= 0 -> byRank b c <= 0 -> byRank a c <= 0.
Proof. cbv beta; lra. Qed.

Lemma byRank_rank (a b : Recommendation.t) :
  byRank a b <= 0 ->
  rank (Recommendation.priority a) <= rank (Recommendation.priority b).
Proof. cbv beta; lra. Qed.

Lemma sortedRecommendations_ordered (recs : list Recommendation.t) :
  plain_priorities recs ->
  StronglySorted (fun a b => byRank a b <= 0) (sortedRecommendations recs).
Proof.
  intros H; rewrite (sortedRecommendations_plain recs H).
  apply OrderFacts.sort_is_sorted.
  - apply byRank_total.
  - apply byRank_transitive.
Qed.

Lemma rank_ranked (p : jsstring) :
  In p [str "HIGH"; str "MEDIUM"; str "LOW"] -> rank p <= 3.
Proof.
  intros [<- | [<- | [<- | []]]]; vm_compute; discriminate.
Qed.

Lemma rank_CRITICAL : rank (str "CRITICAL") == 99.
Proof. reflexivity. Qed.

(** As long as no priority is the name of a member of [Object.prototype],
    the list is shown in ascending rank: HIGH, then MEDIUM, then LOW, then
    every other priority ('CRITICAL' among them, as its rank 0 is falsy);
    nothing is added or dropped. *)
Theorem recommendations_by_rank (recs : list Recommendation.t) :
  plain_priorities recs ->
  Permutation (sortedRecommendations recs) recs
  /\ StronglySorted
       (fun a b =>
          rank (Recommendation.priority a)
          <= rank (Recommendation.priority b))
       (sortedRecommendations recs).
Proof.
  intros H; split.
  - apply sortedRecommendations_permutation.
  - apply (ViewFacts.sorted_weaken _ _ _ _ byRank_rank).
    apply sortedRecommendations_ordered, H.
Qed.

Lemma recommendations_by_rank_witness :
  StronglySorted
    (fun a b =>
       rank (Recommendation.priority a) <= rank (Recommendation.priority b))
    (sortedRecommendations
       [MoreSamples.recommendation "CRITICAL";
        MoreSamples.recommendation "LOW";
        MoreSamples.recommendation "URGENT";
        MoreSamples.recommendation "HIGH"]).
Proof.
  apply (recommendations_by_rank
           [MoreSamples.recommendation "CRITICAL";
            MoreSamples.recommendation "LOW";
            MoreSamples.recommendation "URGENT";
            MoreSamples.recommendation "HIGH"]).
  repeat constructor.
Defined.

(** As long as no priority is the name of a member of [Object.prototype],
    recommendations of one rank are shown in the order the backend gave
    them. *)
Theorem recommendations_stable (recs : list Recommendation.t) (r : number) :
  plain_priorities recs ->
  filter (fun a => Qeq_bool (rank (Recommendation.priority a)) r)
    (sortedRecommendations recs)
  = filter (fun a => Qeq_bool (rank (Recommendation.priority a)) r) recs.
Proof.
  intros H; rewrite (sortedRecommendations_plain recs H).
  apply OrderFacts.sort_stable.
  intros a b Ha Hb; apply Qeq_bool_iff in Ha, Hb.
  cbv beta; lra.
Qed.

Lemma recommendations_stable_witness :
  filter (fun a => Qeq_bool (rank (Recommendation.priority a)) 99)
    (sortedRecommendations
       [MoreSamples.recommendation "URGENT";
        MoreSamples.recommendation "LOW";
        MoreSamples.recommendation "CRITICAL"])
  = [MoreSamples.recommendation "URGENT";
     MoreSamples.recommendation "CRITICAL"].
Proof.
  apply (recommendations_stable
           [MoreSamples.recommendation "URGENT";
            MoreSamples.recommendation "LOW";
            MoreSamples.recommendation "CRITICAL"] 99).
  repeat constructor.
Defined.

(** The sort works in place on the array the state holds; as long as no
    priority is the name of a member of [Object.prototype], sorting the
    sorted array again, as every re-render does, changes nothing. *)
Theorem renderSorts_idempotent (r : MoodAnalysisResponse.t) :
  plain_priorities (MoodAnalysisResponse.recommendations r) ->
  renderSorts (renderSorts r) = renderSorts r.
Proof.
  intros H; unfold renderSorts; simpl; f_equal.
  assert (H' : plain_priorities
                 (sortedRecommendations
                    (MoodAnalysisResponse.recommendations r))).
  { apply (Permutation_Forall
             (Permutation_sym (sortedRecommendations_permutation _))), H. }
  rewrite (sortedRecommendations_plain _ H').
  rewrite (sortedRecommendations_plain _ H).
  apply OrderFacts.sort_twice.
  - apply byRank_total.
  - apply byRank_transitive.
Qed.

Lemma renderSorts_idempotent_witness :
  renderSorts
    (renderSorts
       {| MoodAnalysisResponse.success := true;
          MoodAnalysisResponse.mood_analysis :=
            MoodAnalysisResponse.mood_analysis MoreSamples.answer;
          MoodAnalysisResponse.crisis_check :=
            MoodAnalysisResponse.crisis_check MoreSamples.answer;
          MoodAnalysisResponse.recommendations :=
            [MoreSamples.recommendation "LOW";
             MoreSamples.recommendation "HIGH"] |})
  = renderSorts
      {| MoodAnalysisResponse.success := true;
         MoodAnalysisResponse.mood_analysis :=
           MoodAnalysisResponse.mood_analysis MoreSamples.answer;
         MoodAnalysisResponse.crisis_check :=
           MoodAnalysisResponse.crisis_check MoreSamples.answer;
         MoodAnalysisResponse.recommendations :=
           [MoreSamples.recommendation "LOW";
            MoreSamples.recommendation "HIGH"] |}.
Proof.
  apply renderSorts_idempotent.
  repeat constructor.
Defined.

(** As long as no priority is the name of a member of [Object.prototype],
    a recommendation of priority 'CRITICAL' is shown after every
    recommendation of priority HIGH, MEDIUM or LOW. *)
Theorem critical_after_ranked (recs : list Recommendation.t)
    (c b : Recommendation.t) :
  plain_priorities recs ->
  In c recs -> In b recs ->
  Recommendation.priority c = str "CRITICAL" ->
  In (Recommendation.priority b) [str "HIGH"; str "MEDIUM"; str "LOW"] ->
  before (sortedRecommendations recs) b c.
Proof.
  intros Hplain Hc Hb Pc Pb.
  pose proof (sortedRecommendations_permutation recs) as Hperm.
  apply (Permutation_in _ (Permutation_sym Hperm)) in Hc, Hb.
  assert (Hne : b <> c).
  { intros ->; rewrite Pc in Pb.
    destruct Pb as [H | [H | [H | []]]]; discriminate H. }
  destruct (OrderFacts.before_or_after _ _ b c Hb Hc Hne) as [H | H];
    [exact H | exfalso].
  apply (OrderFacts.sorted_before _ _ _ c b
           (sortedRecommendations_ordered recs Hplain)) in H.
  apply byRank_rank in H.
  apply rank_ranked in Pb.
  rewrite Pc, rank_CRITICAL in H; lra.
Qed.

Lemma critical_after_ranked_witness :
  before
    (sortedRecommendations
       [MoreSamples.recommendation "CRITICAL";
        MoreSamples.recommendation "LOW";
        MoreSamples.recommendation "HIGH"])
    (MoreSamples.recommendation "LOW")
    (MoreSamples.recommendation "CRITICAL").
Proof.
  apply critical_after_ranked.
  - repeat constructor.
  - left; reflexivity.
  - right; left; reflexivity.
  - reflexivity.
  - right; right; left; reflexivity.
Defined.

End RecommendationFacts.

(* ================================================================== *)
(** ** The face scanner                                                *)
(* ================================================================== *)

Module ScannerFacts.
Import JS Api FaceScannerUI MoreTerms.
Open Scope Q_scope.

(** The upload handler hands a file to the reader exactly when one was
    chosen, its type starts with 'image/' and it has at most 10 * 1024 * 1024
    bytes; it never touches the image on screen or the mode, and it leaves
    the state alone when it accepts the file. *)
Theorem handleImageUpload_validates (file : option File) (st : State) :
  (forall f,
     fst (handleImageUpload file st) = Some f
     <-> file = Some f /\ acceptable f)
  /\ uploadedImage (snd (handleImageUpload file st)) = uploadedImage st
  /\ imageMode (snd (handleImageUpload file st)) = imageMode st
  /\ (fst (handleImageUpload file st) <> None ->
      snd (handleImageUpload file st) = st).
Proof.
  unfold acceptable.
  split; [| split; [| split]].
  - intros f; unfold handleImageUpload.
    destruct file as [g|]; simpl;
      [| split; [discriminate | intros [H _]; discriminate H]].
    destruct (startsWith (type g) (str "image/")) eqn:T; simpl;
      [| split; [discriminate
                | intros [H [Ht _]]; inversion H; subst; congruence]].
    destruct (Qle_bool (size g) maxImageBytes) eqn:S; simpl.
    + apply Qle_bool_iff in S; unfold maxImageBytes in S.
      split.
      * intros H; inversion H; subst.
        split; [reflexivity | split; [exact T | lra]].
      * intros [H _]; exact H.
    + split; [discriminate|].
      intros [H [_ Hs]]; inversion H; subst.
      assert (Hb : Qle_bool (size f) maxImageBytes = true)
        by (apply Qle_bool_iff; unfold maxImageBytes; lra).
      congruence.
  - unfold handleImageUpload; destruct file as [g|]; simpl; [|reflexivity].
    destruct (startsWith (type g) (str "image/")); simpl; [|reflexivity].
    destruct (Qle_bool (size g) maxImageBytes); reflexivity.
  - unfold handleImageUpload; destruct file as [g|]; simpl; [|reflexivity].
    destruct (startsWith (type g) (str "image/")); simpl; [|reflexivity].
    destruct (Qle_bool (size g) maxImageBytes); reflexivity.
  - unfold handleImageUpload; destruct file as [g|]; simpl; [|reflexivity].
    destruct (startsWith (type g) (str "image/")); simpl;
      [| intros H; exfalso; apply H; reflexivity].
    destruct (Qle_bool (size g) maxImageBytes); simpl;
      [reflexivity | intros H; exfalso; apply H; reflexivity].
Qed.

Lemma handleImageUpload_validates_witness :
  fst (handleImageUpload (Some MoreSamples.photo) initial)
  = Some MoreSamples.photo.
Proof.
  apply (proj1 (handleImageUpload_validates (Some MoreSamples.photo) initial)).
  split; [reflexivity | split; [reflexivity | vm_compute; discriminate]].
Defined.

Lemma stopScanning_stops (st : State) :
  isScanning (stopScanning st) = false
  /\ intervalRef (stopScanning st) = false.
Proof.
  unfold stopScanning; simpl.
  destruct (intervalRef st) eqn:E; simpl; auto.
Qed.

Lemma stopScanning_frame (st : State) :
  uploadedImage (stopScanning st) = uploadedImage st
  /\ imageMode (stopScanning st) = imageMode st
  /\ modelsLoaded (stopScanning st) = modelsLoaded st
  /\ faceapi (stopScanning st) = faceapi st
  /\ isLoading (stopScanning st) = isLoading st.
Proof.
  unfold stopScanning; simpl.
  destruct (intervalRef st); simpl; auto.
Qed.

(** The two detection functions take the same steps. *)
Lemma detectEmotionsFromImage_same (probe : Probe) (st : State) :
  detectEmotionsFromImage probe st = detectEmotions probe st.
Proof. reflexivity. Qed.

(** A detection changes nothing but the detected emotions. *)
Lemma detectEmotions_frame (probe : Probe) (st : State) :
  exists d, snd (detectEmotions probe st) = setDetectedEmotions d st.
Proof.
  unfold detectEmotions.
  destruct (negb (element probe) || negb (canvas probe)
            || negb (modelsLoaded st) || negb (faceapi st));
    [exists (detectedEmotions st); destruct st; reflexivity|].
  destruct (Qeq_bool (width probe) 0 || Qeq_bool (height probe) 0);
    [exists (detectedEmotions st); destruct st; reflexivity|].
  destruct (detections probe) as [|face others];
    [exists (detectedEmotions st); destruct st; reflexivity|].
  exists (Some face); reflexivity.
Qed.


(** When something a detection needs is missing, or no face is found, the
    detection returns nothing and changes nothing. *)
Lemma detectEmotions_nothing (probe : Probe) (st : State) :
  detections probe = []
  \/ element probe = false \/ canvas probe = false
  \/ width probe == 0 \/ height probe == 0
  \/ modelsLoaded st = false \/ faceapi st = false ->
  detectEmotions probe st = (None, st).
Proof.
  unfold detectEmotions; intros H.
  destruct (negb (element probe) || negb (canvas probe)
            || negb (modelsLoaded st) || negb (faceapi st)) eqn:G;
    [reflexivity|].
  destruct (Qeq_bool (width probe) 0 || Qeq_bool (height probe) 0) eqn:Z;
    [reflexivity|].
  destruct (detections probe) as [|face others]; [reflexivity | exfalso].
  apply orb_false_iff in G; destruct G as [G Gf].
  apply orb_false_iff in G; destruct G as [G Gm].
  apply orb_false_iff in G; destruct G as [Ge Gc].
  apply orb_false_iff in Z; destruct Z as [Zw Zh].
  apply negb_false_iff in Ge, Gc, Gm, Gf.
  destruct H as [H | [H | [H | [H | [H | [H | H]]]]]];
    try discriminate H; try congruence.
  - apply Qeq_bool_iff in H; congruence.
  - apply Qeq_bool_iff in H; congruence.
Qed.

(** The scanner keeps three invariants: an uploaded image is on screen only
    in image mode; once the models are loaded, face-api.js is there and the
    loading screen is gone; and the scan timer is set exactly while the
    scanner is scanning. *)
Theorem scanner_invariants (st : State) :
  scanner_reachable st ->
  (uploadedImage st <> None -> imageMode st = true)
  /\ (modelsLoaded st = true -> faceapi st = true /\ isLoading st = false)
  /\ isScanning st = intervalRef st.
Proof.
  induction 1 as [|ev st Hreach (Hup & Hmod & Hscan)].
  - simpl; intuition congruence.
  - destruct ev as [imported | primary alternative | granted | file | url |
                    | | | | | | probe | probe | probe]; simpl.
    + unfold loadFaceApi; destruct imported; simpl; intuition congruence.
    + unfold loadModels.
      destruct (faceapi st) eqn:F; simpl; [|intuition congruence].
      destruct primary; simpl; [intuition congruence|].
      destruct alternative; simpl; intuition congruence.
    + unfold startCamera.
      destruct (modelsLoaded st) eqn:M; simpl; [|intuition congruence].
      destruct granted; simpl; intuition congruence.
    + unfold handleImageUpload.
      destruct file as [f|]; simpl; [|intuition congruence].
      destruct (startsWith (type f) (str "image/")); simpl;
        [destruct (Qle_bool (size f) maxImageBytes); simpl|];
        intuition congruence.
    + intuition congruence.
    + intuition congruence.
    + destruct (imageMode st) eqn:I; simpl; intuition congruence.
    + intuition congruence.
    + intuition congruence.
    + intuition congruence.
    + destruct (stopScanning_stops st) as [H1 H2].
      destruct (stopScanning_frame st) as (F1 & F2 & F3 & F4 & F5).
      rewrite H1, H2, F1, F2, F3, F4, F5; intuition congruence.
    + destruct (detectEmotions_frame probe st) as [d ->]; simpl.
      intuition congruence.
    + rewrite detectEmotionsFromImage_same.
      destruct (detectEmotions_frame probe st) as [d ->]; simpl.
      intuition congruence.
    + destruct (stopScanning_stops st) as [H1 H2].
      destruct (stopScanning_frame st) as (F1 & F2 & F3 & F4 & F5).
      unfold captureEmotion.
      rewrite detectEmotionsFromImage_same.
      assert (Hsame :
                (if imageMode st then detectEmotions probe (stopScanning st)
                 else detectEmotions probe (stopScanning st))
                = detectEmotions probe (stopScanning st))
        by (destruct (imageMode st); reflexivity).
      rewrite Hsame.
      destruct (detectEmotions_frame probe (stopScanning st)) as [d Hd].
      destruct (detectEmotions probe (stopScanning st)) as [[reading|] st'];
        simpl in Hd; subst st'; simpl;
        rewrite H1, H2, F1, F2, F3, F4, F5; intuition congruence.
Qed.

Lemma scanner_invariants_witness :
  isScanning (step ClickStart (step (ModelsFetch false true)
                                 (step (FaceApiImport true) initial)))
  = intervalRef (step ClickStart (step (ModelsFetch false true)
                                    (step (FaceApiImport true) initial))).
Proof.
  apply (scanner_invariants
           (step ClickStart (step (ModelsFetch false true)
                               (step (FaceApiImport true) initial)))).
  repeat apply scanner_step; apply scanner_initial.
Defined.

End ScannerFacts.

(* ================================================================== *)
(** ** From the capture button to the result on screen                 *)
(* ================================================================== *)

Module FlowFacts.
Import JS Api Terms MoreTerms FaceScanFlow.
Open Scope Q_scope.



(** A capture that yields no reading (no face found, or the element, the
    canvas, the models or face-api.js missing, or a size of zero) sends
    nothing and leaves the analyzer as it was; the scanner stays open,
    stops scanning and reports that no face was detected. *)
Theorem capture_without_reading (analyze : MoodAnalyzer.AnalyzeApi)
    (probe : FaceScannerUI.Probe) (scanner : FaceScannerUI.State)
    (analyzer : MoodAnalyzer.State) :
  FaceScannerUI.detections probe = []
  \/ FaceScannerUI.element probe = false
  \/ FaceScannerUI.canvas probe = false
  \/ FaceScannerUI.width probe == 0
  \/ FaceScannerUI.height probe == 0
  \/ FaceScannerUI.modelsLoaded scanner = false
  \/ FaceScannerUI.faceapi scanner = false ->
  fst (capture analyze probe scanner analyzer) = ([], analyzer)
  /\ FaceScannerUI.error (snd (capture analyze probe scanner analyzer))
     = Some
         (if FaceScannerUI.imageMode scanner
          then
            str "No face detected in the image. Please try a different image."
          else
            str "No face detected. Please position your face in front of the camera.")
  /\ FaceScannerUI.isScanning (snd (capture analyze probe scanner analyzer))
     = false
  /\ FaceScannerUI.intervalRef (snd (capture analyze probe scanner analyzer))
     = false.
Proof.
  intros H.
  destruct (ScannerFacts.stopScanning_frame scanner) as (_ & _ & F3 & F4 & _).
  destruct (ScannerFacts.stopScanning_stops scanner) as [S1 S2].
  assert (Hnone :
            FaceScannerUI.detectEmotions probe
              (FaceScannerUI.stopScanning scanner)
            = (None, FaceScannerUI.stopScanning scanner)).
  { apply ScannerFacts.detectEmotions_nothing.
    rewrite F3, F4; exact H. }
  unfold capture, FaceScannerUI.captureEmotion.
  rewrite ScannerFacts.detectEmotionsFromImage_same, Hnone.
  destruct (FaceScannerUI.imageMode scanner); simpl; auto.
Qed.

Lemma capture_without_reading_witness :
  fst (capture Samples.backend
         (FaceScannerUI.mkProbe true true 640 480 [])
         MoreSamples.ready MoodAnalyzer.initial)
  = ([], MoodAnalyzer.initial).
Proof.
  apply (capture_without_reading Samples.backend
           (FaceScannerUI.mkProbe true true 640 480 [])
           MoreSamples.ready MoodAnalyzer.initial).
  left; reflexivity.
Defined.

End FlowFacts.

(* ================================================================== *)
(** ** The dashboard: loading and seeding                              *)
(* ================================================================== *)

Module DashboardMoreFacts.
Import JS Api JSFacts ObjectFacts MoodDashboard MoodDashboardSeed Terms
  MoreTerms DashboardFacts.
Open Scope Q_scope.

(** The three requests count as one: when any of them fails, none of
    history, patterns and recommendations changes, not even with what the
    others returned; only the spinner is cleared. *)
Theorem loadDashboardData_all_or_nothing
    (historyData : Outcome HistoryData)
    (patternsData : Outcome (option Patterns))
    (recsData : Outcome (option (list Recommendation.t)))
    (st : State) :
  (exists err,
     historyData = Rejected err \/ patternsData = Rejected err
     \/ recsData = Rejected err) ->
  history (loadDashboardData historyData patternsData recsData st)
  = history st
  /\ patterns (loadDashboardData historyData patternsData recsData st)
     = patterns st
  /\ recommendations (loadDashboardData historyData patternsData recsData st)
     = recommendations st
  /\ loading (loadDashboardData historyData patternsData recsData st) = false.
Proof.
  intros [err H].
  destruct historyData, patternsData, recsData; simpl; auto;
    destruct H as [H | [H | H]]; discriminate H.
Qed.

Lemma loadDashboardData_all_or_nothing_witness :
  history
    (loadDashboardData
       (Resolved
          {| success := true;
             entries := [Samples.entry (Some Samples.intensities)];
             total_entries := 1 |})
       (Rejected MoreSamples.failure) (Resolved None) initial)
  = [].
Proof.
  apply (loadDashboardData_all_or_nothing
           (Resolved
              {| success := true;
                 entries := [Samples.entry (Some Samples.intensities)];
                 total_entries := 1 |})
           (Rejected MoreSamples.failure) (Resolved None) initial).
  exists MoreSamples.failure; right; left; reflexivity.
Defined.

(** Seeding demo data always ends with the seeding flag cleared.  When the
    seed request succeeds the toast flag is set and the dashboard reloaded,
    but the toast itself is on screen only if the window then shown is not
    empty: the no-data view holds no toast, so after a reload that fails
    or brings no entries into an empty dashboard the success goes unseen.
    When the seed request fails an alert is raised and nothing else
    changes. *)
Theorem handleSeedDemoData_outcomes (toFixed : number -> nat -> jsstring)
    (seed : Outcome unit)
    (historyData : Outcome HistoryData)
    (patternsData : Outcome (option Patterns))
    (recsData : Outcome (option (list Recommendation.t)))
    (st : State) :
  seeding (snd (handleSeedDemoData seed historyData patternsData recsData st))
  = false
  /\ (forall u, seed = Resolved u ->
        fst (handleSeedDemoData seed historyData patternsData recsData st)
        = false
        /\ showToast
             (snd (handleSeedDemoData seed historyData patternsData recsData
                     st)) = true
        /\ loading
             (snd (handleSeedDemoData seed historyData patternsData recsData
                     st)) = false
        /\ history
             (snd (handleSeedDemoData seed historyData patternsData recsData
                     st))
           = history (loadDashboardData historyData patternsData recsData st)
        /\ toastDisplayed
             (render toFixed
                (snd (handleSeedDemoData seed historyData patternsData
                        recsData st)))
           = negb
               (Nat.eqb
                  (List.length
                     (history
                        (loadDashboardData historyData patternsData recsData
                           st)))
                  0))
  /\ (forall err, seed = Rejected err ->
        fst (handleSeedDemoData seed historyData patternsData recsData st)
        = true
        /\ snd (handleSeedDemoData seed historyData patternsData recsData st)
           = setSeeding false st).
Proof.
  unfold handleSeedDemoData.
  destruct seed as [u | err]; simpl.
  - split; [reflexivity | split].
    + intros _ _.
      destruct historyData as [h|], patternsData, recsData; simpl;
        repeat split; unfold render; simpl;
        match goal with
        | |- context [List.length ?l] => destruct l; reflexivity
        end.
    + intros e H; discriminate H.
  - split; [reflexivity | split].
    + intros u H; discriminate H.
    + intros _ _; destruct st; auto.
Qed.

Lemma handleSeedDemoData_outcomes_witness :
  toastDisplayed
    (render (fun _ _ => str "0.0")
       (snd (handleSeedDemoData (Resolved tt)
               (Resolved
                  {| success := true;
                     entries := [Samples.entry (Some Samples.intensities)];
                     total_entries := 1 |})
               (Resolved None) (Resolved None) initial)))
  = true
  /\ toastDisplayed
       (render (fun _ _ => str "0.0")
          (snd (handleSeedDemoData (Resolved tt)
                  (Rejected MoreSamples.failure)
                  (Resolved None) (Resolved None) initial)))
     = false
  /\ fst (handleSeedDemoData (Rejected MoreSamples.failure)
            (Resolved
               {| success := true;
                  entries := [Samples.entry (Some Samples.intensities)];
                  total_entries := 1 |})
            (Resolved None) (Resolved None) initial)
     = true.
Proof.
  split; [|split].
  - apply (handleSeedDemoData_outcomes (fun _ _ => str "0.0") (Resolved tt)
             (Resolved
                {| success := true;
                   entries := [Samples.entry (Some Samples.intensities)];
                   total_entries := 1 |})
             (Resolved None) (Resolved None) initial) with (u := tt).
    reflexivity.
  - apply (handleSeedDemoData_outcomes (fun _ _ => str "0.0") (Resolved tt)
             (Rejected MoreSamples.failure) (Resolved None) (Resolved None)
             initial) with (u := tt).
    reflexivity.
  - apply (proj2 (proj2 (handleSeedDemoData_outcomes (fun _ _ => str "0.0")
                           (Rejected MoreSamples.failure)
                           (Resolved
                              {| success := true;
                                 entries :=
                                   [Samples.entry (Some Samples.intensities)];
                                 total_entries := 1 |})
                           (Resolved None) (Resolved None) initial))
             MoreSamples.failure).
    reflexivity.
Defined.

End DashboardMoreFacts.

(* ================================================================== *)
(** ** CrisisResources                                                 *)
(* ================================================================== *)

Module CrisisResourcesFacts.
Import JS Api CrisisResources.

(** After the resources were requested the page never stays on its
    spinner: it lists the resources of the response in the order the
    backend gave them, and an empty list when the request failed or the
    response carries no resources, without any error message. *)
Theorem loadResources_renders (response : Outcome (option (list Resource.t))) :
  exists cards,
    render (loadResources response initial) = ResourceList cards
    /\ (forall rs, response = Resolved (Some rs) -> map fst cards = rs)
    /\ (forall err, response = Rejected err -> cards = [])
    /\ (response = Resolved None -> cards = []).
Proof.
  destruct response as [[rs|] | err]; simpl; eexists;
    (split; [reflexivity|]); repeat split; try discriminate; auto.
  intros rs' H; inversion H; subst.
  rewrite map_map; simpl; apply map_id.
Qed.

End CrisisResourcesFacts.

Module MoreExamples.
Import JS Api.
Open Scope Q_scope.

Example recommendations_order :
  map Recommendation.priority
    (MoodAnalyzerView.sortedRecommendations
       [MoreSamples.recommendation "CRITICAL";
        MoreSamples.recommendation "LOW";
        MoreSamples.recommendation "URGENT";
        MoreSamples.recommendation "HIGH";
        MoreSamples.recommendation "MEDIUM"])
  = [str "HIGH"; str "MEDIUM"; str "LOW"; str "CRITICAL"; str "URGENT"].
Proof. reflexivity. Qed.

Example upload_limits :
  fst (FaceScannerUI.handleImageUpload
         (Some (FaceScannerUI.mkFile (str "image/png") 10485761))
         FaceScannerUI.initial) = None
  /\ fst (FaceScannerUI.handleImageUpload
            (Some (FaceScannerUI.mkFile (str "application/pdf") 10))
            FaceScannerUI.initial) = None
  /\ FaceScannerUI.error
       (snd (FaceScannerUI.handleImageUpload
               (Some (FaceScannerUI.mkFile (str "application/pdf") 99999999))
               FaceScannerUI.initial))
     = Some (str "Please upload an image file (jpg, png, etc.)").
Proof. repeat split. Qed.

Example capture_of_sample_face :
  MoodAnalyzer.text
    (snd (fst (FaceScanFlow.capture Samples.backend MoreSamples.probe
                 MoreSamples.ready MoodAnalyzer.initial)))
  = str "I'm feeling happy based on my facial expression.".
Proof. reflexivity. Qed.

End MoreExamples.
